(** * Wallet session store: a shallow embedding of [src/store/walletStore.js]
      and of the [useWallet] hook of [src/hooks/useWallet.js].

    The store is a Zustand singleton whose actions read and write one state
    object and talk to the injected wallet provider ([window.ethereum],
    wrapped by [ethers.BrowserProvider]).  The embedding keeps that shape:
    the state object is a record, the actions are computations in a small
    state-and-exception monad over a [World] that also holds the provider,
    the listeners registered on it and the log of the calls made to it. *)

From Stdlib Require Import ZArith String Ascii List Bool Lia.
From stdpp Require Import base option list gmap strings pretty.
Import ListNotations.

Local Open Scope string_scope.
Local Open Scope Z_scope.

(** ** JavaScript values used by the store *)

Module Js.

(** A JavaScript number as the store meets it: the result of
    [parseInt(_, 16)] or of [Number(bigint)].  [Num z] stands for the
    integer [z]; it is the exact value of the source expression as long as
    [z] is a safe integer ([|z| <= MAX_SAFE_INTEGER]). *)
Inductive number := NaN | Num (z : Z).

Definition MAX_SAFE_INTEGER : Z := 2 ^ 53 - 1.

(** [String(n)] / [`${n}`] / the property key [obj[n]]. *)
Definition to_string (n : number) : string :=
  match n with
  | NaN => "NaN"
  | Num z => pretty z
  end.

(** Truthiness of a value that is a string, [null] or [undefined]. *)
Definition truthy (v : option string) : bool :=
  match v with
  | None => false
  | Some s => negb (String.eqb s "")
  end.

(** [v || d] where [v] is a string, [null] or [undefined]. *)
Definition or_else (v : option string) (d : string) : string :=
  match v with
  | Some s => if truthy v then s else d
  | None => d
  end.

(** [s.slice(start, end)]; [end_ = None] is the omitted argument. *)
Definition slice (s : string) (start : Z) (end_ : option Z) : string :=
  let len := Z.of_nat (String.length s) in
  let from := if start <? 0 then Z.max (len + start) 0 else Z.min start len in
  let e := match end_ with None => len | Some e => e end in
  let to := if e <? 0 then Z.max (len + e) 0 else Z.min e len in
  String.substring (Z.to_nat from) (Z.to_nat (Z.max (to - from) 0)) s.

(** White space skipped by [parseInt] (the ASCII part of [StrWhiteSpaceChar]:
    TAB, LF, VT, FF, CR, SP). *)
Definition is_white_space (c : ascii) : bool :=
  let n := nat_of_ascii c in
  ((9 <=? n)%nat && (n <=? 13)%nat) || (n =? 32)%nat.

Fixpoint trim_start (s : string) : string :=
  match s with
  | String c s' => if is_white_space c then trim_start s' else s
  | EmptyString => s
  end.

(** Value of a radix-16 digit, [None] for any other code unit. *)
Definition hex_digit (c : ascii) : option Z :=
  let n := Z.of_nat (nat_of_ascii c) in
  if (48 <=? n) && (n <=? 57) then Some (n - 48)
  else if (97 <=? n) && (n <=? 102) then Some (n - 87)
  else if (65 <=? n) && (n <=? 70) then Some (n - 55)
  else None.

(** The digits of [s] up to the first code unit that is not a radix-16
    digit (step 11 of [parseInt]). *)
Fixpoint hex_prefix (s : string) : list Z :=
  match s with
  | String c s' =>
      match hex_digit c with
      | Some d => d :: hex_prefix s'
      | None => []
      end
  | EmptyString => []
  end.

(** The mathematical integer written by a list of radix-16 digits. *)
Definition hex_math_int (ds : list Z) : Z :=
  fold_left (fun acc d => 16 * acc + d) ds 0.

(** [parseInt(s, 16)]: skip white space, read the sign, strip one
    ["0x"]/["0X"] prefix, read digits as far as they go; [NaN] when there
    is none. *)
Definition parseInt16 (s : string) : number :=
  let s1 := trim_start s in
  let '(sign, s2) :=
    match s1 with
    | String "-" r => (-1, r)
    | String "+" r => (1, r)
    | _ => (1, s1)
    end in
  let s3 :=
    match s2 with
    | String "0" (String "x" r) => r
    | String "0" (String "X" r) => r
    | _ => s2
    end in
  match hex_prefix s3 with
  | [] => NaN
  | ds => Num (sign * hex_math_int ds)
  end.

End Js.

(** ** The network table *)

(** [const NETWORK_NAMES = { 1: ..., 11155111: ..., 137: ..., 80001: ... }]:
    an object, so its keys are the decimal strings of the ids. *)
Definition NETWORK_NAMES : gmap string string :=
  <["1" := "Ethereum Mainnet"]>
  (<["11155111" := "Sepolia Testnet"]>
  (<["137" := "Polygon"]>
  (<["80001" := "Mumbai Testnet"]> ∅))).

(** [NETWORK_NAMES[chainId] || `Chain ID: ${chainId}`] *)
Definition network_name (chainId : Js.number) : string :=
  Js.or_else (NETWORK_NAMES !! Js.to_string chainId)
             ("Chain ID: " ++ Js.to_string chainId).

(** ** Exceptions, the provider and the monad of the actions *)

(** [err.code] of a caught value: a number (EIP-1193 codes such as 4001), a
    string (ethers' own codes) or missing. *)
Inductive code_value := CodeUndefined | CodeNumber (z : Z) | CodeString (s : string).

(** The two properties of a caught value that the [catch] blocks read. *)
Record Exn := mkExn { code : code_value; message : option string }.

Inductive completion (A : Type) :=
| Normal (a : A)
| Throw (e : Exn).
Arguments Normal {A} a.
Arguments Throw {A} e.

(** What the injected provider, seen through [ethers.BrowserProvider],
    answers to each request the store makes.  [getNetwork] answers
    [networkInfo.chainId], a bigint; [getBalance] answers the balance in wei. *)
Record Provider := mkProvider {
  eth_requestAccounts : completion unit;
  getSigner : completion unit;
  getAddress : completion string;
  getBalance : string -> completion Z;
  getNetwork : completion Z
}.

(** The requests made to the provider, in the order they are made. *)
Inductive call :=
| Call_requestAccounts
| Call_getSigner
| Call_getAddress
| Call_getBalance (a : string)
| Call_getNetwork.

Global Instance call_eq_dec : EqDecision call.
Proof. solve_decision. Defined.

(** A computation over a state [Σ] that returns or throws. *)
Definition M (Σ A : Type) : Type := Σ -> completion A * Σ.

Global Instance M_ret {Σ} : MRet (M Σ) :=
  fun A a σ => (Normal a, σ).

Global Instance M_bind {Σ} : MBind (M Σ) :=
  fun A B f m σ =>
    match m σ with
    | (Normal a, σ') => f a σ'
    | (Throw e, σ') => (Throw e, σ')
    end.

Definition throw {Σ A} (e : Exn) : M Σ A := fun σ => (Throw e, σ).

(** [try { m } catch (err) { h err }] *)
Definition try_catch {Σ A} (m : M Σ A) (h : Exn -> M Σ A) : M Σ A :=
  fun σ =>
    match m σ with
    | (Normal a, σ') => (Normal a, σ')
    | (Throw e, σ') => h e σ'
    end.

Definition get_state {Σ} : M Σ Σ := fun σ => (Normal σ, σ).
Definition modify {Σ} (f : Σ -> Σ) : M Σ unit := fun σ => (Normal tt, f σ).

(** The outcome of an awaited request. *)
Definition await {Σ A} (r : completion A) : M Σ A := fun σ => (r, σ).

(** The state a computation leaves behind, whether it returned or threw. *)
Definition exec {Σ A} (m : M Σ A) (σ : Σ) : Σ := snd (m σ).

(** [TypeError: Cannot read properties of undefined]. *)
Definition TypeError_undefined : Exn :=
  mkExn CodeUndefined (Some "Cannot read properties of undefined").

(** The catch block of both [connect] implementations:
    [err.code === 4001 ? 'Connection rejected. Please try again.'
                       : (err.message || fallback)]. *)
Definition connect_error_message (fallback : string) (err : Exn) : string :=
  match code err with
  | CodeNumber 4001 => "Connection rejected. Please try again."
  | _ => Js.or_else (message err) fallback
  end.

Inductive Status := Idle | Connecting | Connected | Error.

Global Instance Status_eq_dec : EqDecision Status.
Proof. solve_decision. Defined.

(** ** The store of [walletStore.js] *)

(** The two closures made by one run of [startListeners].  A closure is
    known by its identity (every run makes fresh ones); all of them have the
    same body, [onAccountsChanged] and [onChainChanged] below. *)
Record Listeners := mkListeners {
  onAccountsChanged_ref : nat;
  onChainChanged_ref : nat
}.

(** The state object.  [_listeners] is the property that [startListeners]
    attaches to it; Zustand's [set] builds the next state object with
    [Object.assign({}, state, partial)], which carries the property over. *)
Record Store := mkStore {
  address : option string;
  balance : option string;
  network : option string;
  chainId : option Js.number;
  status : Status;
  error : option string;
  _listeners : option Listeners
}.

Inductive event := accountsChanged | chainChanged.

Global Instance event_eq_dec : EqDecision event.
Proof. solve_decision. Defined.

(** Everything the actions can see or change: the state object, the injected
    provider ([None] when [window.ethereum] is undefined), the listeners
    attached to it, the requests made so far (latest last) and the number of
    closures allocated so far. *)
Record World := mkWorld {
  store : Store;
  window_ethereum : option Provider;
  registered : list (event * nat);
  calls : list call;
  closures : nat
}.

Definition initial_store : Store :=
  mkStore None None None None Idle None None.

Definition initial_world (eth : option Provider) : World :=
  mkWorld initial_store eth [] [] 0.

Definition with_store (f : Store -> Store) (w : World) : World :=
  mkWorld (f (store w)) (window_ethereum w) (registered w) (calls w) (closures w).

Definition with_window_ethereum (eth : option Provider) (w : World) : World :=
  mkWorld (store w) eth (registered w) (calls w) (closures w).

(** Zustand's [get()] and [set(partial)]. *)
Definition get : M World Store := fun w => (Normal (store w), w).
Definition set (partial : Store -> Store) : M World unit := modify (with_store partial).

(** A request goes out to the provider. *)
Definition issue (c : call) : M World unit :=
  modify (fun w => mkWorld (store w) (window_ethereum w) (registered w)
                           (calls w ++ [c]) (closures w)).

(** A request to the provider, and its answer. *)
Definition request {A} (c : call) (answer : completion A) : M World A :=
  issue c;;
  await answer.

(** [window.ethereum.on(ev, h)]; a [TypeError] when [window.ethereum] is
    undefined. *)
Definition on (ev : event) (h : nat) : M World unit :=
  w ← get_state;
  match window_ethereum w with
  | None => throw TypeError_undefined
  | Some _ =>
      modify (fun w => mkWorld (store w) (window_ethereum w)
                               (registered w ++ [(ev, h)]) (calls w) (closures w))
  end.

(** Drop the latest occurrence of [x], if any. *)
Fixpoint remove_last {A} `{EqDecision A} (x : A) (l : list A) : list A :=
  match l with
  | [] => []
  | y :: r =>
      if decide (x = y)
      then (if decide (x ∈ r) then y :: remove_last x r else r)
      else y :: remove_last x r
  end.

(** [window.ethereum.removeListener(ev, h)]. *)
Definition removeListener (ev : event) (h : nat) : M World unit :=
  w ← get_state;
  match window_ethereum w with
  | None => throw TypeError_undefined
  | Some _ =>
      modify (fun w => mkWorld (store w) (window_ethereum w)
                               (remove_last (ev, h) (registered w)) (calls w) (closures w))
  end.

(** A fresh closure. *)
Definition new_closure : M World nat :=
  fun w => (Normal (closures w),
            mkWorld (store w) (window_ethereum w) (registered w) (calls w) (S (closures w))).

(** [new ethers.BrowserProvider(window.ethereum)]: the constructor rejects an
    undefined argument. *)
Definition new_BrowserProvider : M World Provider :=
  w ← get_state;
  match window_ethereum w with
  | None => throw (mkExn (CodeString "INVALID_ARGUMENT") (Some "invalid EIP-1193 provider"))
  | Some eth => mret eth
  end.

(** ** Sample values, to run the model on *)

Definition sample_address : string := "0x0879A1b2C3d4E5f60718293a4B5c6D7e8F90aF38".

(** A provider that grants access and answers every read: 0.05 ether on
    Sepolia. *)
Definition granting_provider : Provider :=
  mkProvider (Normal tt) (Normal tt) (Normal sample_address)
             (fun _ => Normal 50000000000000000) (Normal 11155111).

(** What reaches the caller of [provider.send] when the user turns a request
    down: the wallet answers with EIP-1193 code 4001, and
    [ethers.BrowserProvider] rethrows it as an error of its own, with the
    string code ['ACTION_REJECTED'] and its own text (abridged here). *)
Definition ethers_user_rejection : Exn :=
  mkExn (CodeString "ACTION_REJECTED")
        (Some "user rejected action (action=requestAccess, reason=rejected, code=ACTION_REJECTED)").

(** A provider whose user turns the account request down. *)
Definition rejecting_provider : Provider :=
  mkProvider (Throw ethers_user_rejection)
             (Normal tt) (Normal sample_address)
             (fun _ => Normal 50000000000000000) (Normal 11155111).

(** A provider that grants access but cannot read balances. *)
Definition unreadable_provider : Provider :=
  mkProvider (Normal tt) (Normal tt) (Normal sample_address)
             (fun _ => Throw (mkExn (CodeString "NETWORK_ERROR")
                                    (Some "could not detect network")))
             (Normal 11155111).

(** A stand-in for the rendering of balances: the amount in ether rounded to
    four decimals in exact arithmetic. *)
Definition sample_formatEther4 (rawBalance : Z) : string :=
  let n := (rawBalance + 5 * 10 ^ 13) / 10 ^ 14 in
  let frac := pretty (n mod 10 ^ 4) in
  pretty (n / 10 ^ 4) ++ "." ++
  String.substring 0 (4 - String.length frac) "0000" ++ frac.

(** The world after a [connect] granted by [granting_provider] from the
    initial state, with balances rendered by [sample_formatEther4]. *)
Definition connected_world : World :=
  mkWorld (mkStore (Some sample_address) (Some "0.0500") (Some "Sepolia Testnet")
                   (Some (Js.Num 11155111)) Connected None (Some (mkListeners 0 1)))
          (Some granting_provider)
          [(accountsChanged, 0%nat); (chainChanged, 1%nat)]
          [Call_requestAccounts; Call_getSigner; Call_getAddress;
           Call_getBalance sample_address; Call_getNetwork]
          2.

(** Stand-ins for the checks of the forms: a recipient must be given, every
    amount reads as 0.01 ether, and an address is 42 characters long. *)
Definition sample_validate (toAddress amount : string) (balance : option string)
  : option string :=
  if String.eqb toAddress "" then
    Some "Invalid address. Must start with 0x and be 42 characters long."
  else None.

Definition sample_parseEther (amount : string) : completion Z := Normal (10 ^ 16).





Section Session.

(** [parseFloat(ethers.formatEther(rawBalance)).toFixed(4)]: the balance in
    wei rendered as an ether amount with four decimals.  The rendering goes
    through a floating-point number and is left abstract. *)
Variable formatEther4 : Z -> string.

(** *** Derived value *)

Definition getShortAddress : M World (option string) :=
  s ← get;
  match address s with
  | Some a =>
      if Js.truthy (Some a)
      then mret (Some (Js.slice a 0 (Some 6) ++ "..." ++ Js.slice a (-4) None))
      else mret None
  | None => mret None
  end.

(** *** Actions *)

Definition startListeners : M World unit :=
  h1 ← new_closure;
  h2 ← new_closure;
  on accountsChanged h1;;
  on chainChanged h2;;
  modify (with_store (fun s =>
    mkStore (address s) (balance s) (network s) (chainId s) (status s) (error s)
            (Some (mkListeners h1 h2)))).

Definition stopListeners : M World unit :=
  s ← get;
  match _listeners s with
  | None => mret tt
  | Some listeners =>
      removeListener accountsChanged (onAccountsChanged_ref listeners);;
      removeListener chainChanged (onChainChanged_ref listeners);;
      modify (with_store (fun s =>
        mkStore (address s) (balance s) (network s) (chainId s) (status s) (error s)
                None))
  end.

(** [connect] up to its first [await]: the check for the extension, the
    switch to ['connecting'] and, already inside the [try] block, the
    wrapping of [window.ethereum] (which is defined on this branch, so the
    constructor goes through) and the account request that opens the
    wallet's prompt.  Returns the provider the call now waits for, or [None]
    when it has returned already. *)
Definition connect_begin : M World (option Provider) :=
  w ← get_state;
  match window_ethereum w with
  | None =>
      set (fun s => mkStore (address s) (balance s) (network s) (chainId s) Error
                            (Some "MetaMask not found. Install it at metamask.io")
                            (_listeners s));;
      mret None
  | Some _ =>
      set (fun s => mkStore (address s) (balance s) (network s) (chainId s) Connecting
                            None (_listeners s));;
      provider ← new_BrowserProvider;
      issue Call_requestAccounts;;
      mret (Some provider)
  end.

(** The rest of the [try] block, run when the account request settles. *)
Definition connect_try (provider : Provider) : M World unit :=
  await (eth_requestAccounts provider);;
  request Call_getSigner (getSigner provider);;
  address ← request Call_getAddress (getAddress provider);
  rawBalance ← request (Call_getBalance address) (getBalance provider address);
  let balance := formatEther4 rawBalance in
  networkInfo ← request Call_getNetwork (getNetwork provider);
  let chainId := Js.Num networkInfo in
  let network := network_name chainId in
  set (fun s => mkStore (Some address) (Some balance) (Some network) (Some chainId)
                        Connected (error s) (_listeners s));;
  startListeners.

Definition connect_catch (err : Exn) : M World unit :=
  let message := connect_error_message "Something went wrong." err in
  set (fun s => mkStore (address s) (balance s) (network s) (chainId s) Error
                        (Some message) (_listeners s)).

Definition connect_resume (provider : Provider) : M World unit :=
  try_catch (connect_try provider) connect_catch.

(** A call of [connect] that runs to its end with nothing in between. *)
Definition connect : M World unit :=
  pending ← connect_begin;
  match pending with
  | None => mret tt
  | Some provider => connect_resume provider
  end.

Definition disconnect : M World unit :=
  stopListeners;;
  set (fun s => mkStore None None None None Idle None (_listeners s)).

(** [refreshBalance], run to its end; the empty [catch] swallows a failed
    read and a failed construction of the provider alike. *)
Definition refreshBalance : M World unit :=
  s ← get;
  match address s with
  | Some a =>
      if Js.truthy (Some a)
      then
        try_catch
          (provider ← new_BrowserProvider;
           rawBalance ← request (Call_getBalance a) (getBalance provider a);
           let balance := formatEther4 rawBalance in
           set (fun s => mkStore (address s) (Some balance) (network s) (chainId s)
                                 (status s) (error s) (_listeners s)))
          (fun _ => mret tt)
      else mret tt
  | None => mret tt
  end.

(** *** The bodies of the listeners *)

Definition onAccountsChanged (accounts : list string) : M World unit :=
  match accounts with
  | [] => disconnect
  | account0 :: _ =>
      set (fun s => mkStore (Some account0) (balance s) (network s) (chainId s)
                            (status s) (error s) (_listeners s));;
      refreshBalance
  end.

Definition onChainChanged (hexChainId : string) : M World unit :=
  let chainId := Js.parseInt16 hexChainId in
  let network := network_name chainId in
  set (fun s => mkStore (address s) (balance s) (Some network) (Some chainId)
                        (status s) (error s) (_listeners s));;
  refreshBalance.

(** *** Sequences of calls *)

(** The session while calls are under way: the world, and the calls of
    [connect] that wait for the provider, each with the provider it asked
    (and so with the answers it will get), oldest first. *)
Record Running := mkRunning {
  session : World;
  in_flight : list Provider
}.

(** What can happen next: [connect] is called (with the injected provider of
    that moment) and runs up to its first [await]; the account request of
    the [i]-th waiting call settles and that call runs to its end;
    [disconnect] is called. *)
Inductive op :=
| op_connect (eth : option Provider)
| op_settle (i : nat)
| op_disconnect.

Definition step (r : Running) (o : op) : Running :=
  match o with
  | op_connect eth =>
      match connect_begin (with_window_ethereum eth (session r)) with
      | (Normal (Some provider), w) => mkRunning w (in_flight r ++ [provider])
      | (_, w) => mkRunning w (in_flight r)
      end
  | op_settle i =>
      match in_flight r !! i with
      | Some provider =>
          mkRunning (exec (connect_resume provider) (session r)) (delete i (in_flight r))
      | None => r
      end
  | op_disconnect => mkRunning (exec disconnect (session r)) (in_flight r)
  end.

Definition run_ops (ops : list op) (r : Running) : Running := fold_left step ops r.

Definition initial_running (eth : option Provider) : Running :=
  mkRunning (initial_world eth) [].

(** No [connect] of the sequence is called while the status is
    ['connected'] or while an earlier call of [connect] still waits for the
    provider. *)
Fixpoint connects_apart (ops : list op) (r : Running) : bool :=
  match ops with
  | [] => true
  | o :: rest =>
      match o with
      | op_connect _ =>
          negb (bool_decide (status (store (session r)) = Connected)) &&
          match in_flight r with [] => true | _ :: _ => false end
      | _ => true
      end && connects_apart rest (step r o)
  end.

(** The number of account requests made so far: each opens the wallet's
    prompt. *)
Definition prompts (w : World) : nat :=
  length (filter (fun c => c = Call_requestAccounts) (calls w)).

(** The answers of the provider to the five requests of [connect], in the
    order they are awaited: the address, the balance in wei and the chain
    id, or the first exception. *)
Definition handshake (p : Provider) : completion (string * Z * Z) :=
  match eth_requestAccounts p with
  | Throw e => Throw e
  | Normal _ =>
      match getSigner p with
      | Throw e => Throw e
      | Normal _ =>
          match getAddress p with
          | Throw e => Throw e
          | Normal a =>
              match getBalance p a with
              | Throw e => Throw e
              | Normal raw =>
                  match getNetwork p with
                  | Throw e => Throw e
                  | Normal c => Normal (a, raw, c)
                  end
              end
          end
      end
  end.

(** ** The hook of [useWallet.js] *)

(** The five [useState] cells of the hook. *)
Record HookState := mkHook {
  hook_address : option string;
  hook_balance : option string;
  hook_network : option string;
  hook_status : Status;
  hook_error : option string
}.

Definition initial_hook : HookState := mkHook None None None Idle None.

Definition setAddress (v : option string) : M HookState unit :=
  modify (fun h => mkHook v (hook_balance h) (hook_network h) (hook_status h) (hook_error h)).
Definition setBalance (v : option string) : M HookState unit :=
  modify (fun h => mkHook (hook_address h) v (hook_network h) (hook_status h) (hook_error h)).
Definition setNetwork (v : option string) : M HookState unit :=
  modify (fun h => mkHook (hook_address h) (hook_balance h) v (hook_status h) (hook_error h)).
Definition setStatus (v : Status) : M HookState unit :=
  modify (fun h => mkHook (hook_address h) (hook_balance h) (hook_network h) v (hook_error h)).
Definition setError (v : option string) : M HookState unit :=
  modify (fun h => mkHook (hook_address h) (hook_balance h) (hook_network h) (hook_status h) v).

(** The hook's [connect], run to its end, with the injected provider of the
    moment. *)
Definition useWallet_connect (window_ethereum : option Provider) : M HookState unit :=
  match window_ethereum with
  | None =>
      setError (Some "MetaMask not found. Please install it at metamask.io");;
      setStatus Error
  | Some provider =>
      try_catch
        (setStatus Connecting;;
         setError None;;
         await (eth_requestAccounts provider);;
         await (getSigner provider);;
         walletAddress ← await (getAddress provider);
         rawBalance ← await (getBalance provider walletAddress);
         networkInfo ← await (getNetwork provider);
         let chainId := Js.Num networkInfo in
         let networkName := network_name chainId in
         setAddress (Some walletAddress);;
         setBalance (Some (formatEther4 rawBalance));;
         setNetwork (Some networkName);;
         setStatus Connected)
        (fun err =>
           setError (Some (connect_error_message "Something went wrong" err));;
           setStatus Error)
  end.

(** The same call in two parts: up to the first [await], and from there on.
    The two [useState] setters that open the [try] block cannot throw. *)
Definition useWallet_connect_begin (window_ethereum : option Provider)
  : M HookState (option Provider) :=
  match window_ethereum with
  | None =>
      setError (Some "MetaMask not found. Please install it at metamask.io");;
      setStatus Error;;
      mret None
  | Some provider =>
      setStatus Connecting;;
      setError None;;
      mret (Some provider)
  end.

Definition useWallet_connect_resume (provider : Provider) : M HookState unit :=
  try_catch
    (await (eth_requestAccounts provider);;
     await (getSigner provider);;
     walletAddress ← await (getAddress provider);
     rawBalance ← await (getBalance provider walletAddress);
     networkInfo ← await (getNetwork provider);
     let chainId := Js.Num networkInfo in
     let networkName := network_name chainId in
     setAddress (Some walletAddress);;
     setBalance (Some (formatEther4 rawBalance));;
     setNetwork (Some networkName);;
     setStatus Connected)
    (fun err =>
       setError (Some (connect_error_message "Something went wrong" err));;
       setStatus Error).

Definition useWallet_disconnect : M HookState unit :=
  setAddress None;;
  setBalance None;;
  setNetwork None;;
  setStatus Idle;;
  setError None.

(** [address ? `${address.slice(0, 6)}...${address.slice(-4)}` : null] *)
Definition useWallet_shortAddress (h : HookState) : option string :=
  match hook_address h with
  | Some a =>
      if Js.truthy (Some a)
      then Some (Js.slice a 0 (Some 6) ++ "..." ++ Js.slice a (-4) None)
      else None
  | None => None
  end.

(** ** Words of the specification *)

(** The first [n] and the last [n] characters of a string. *)
Definition first_chars (n : nat) (s : string) : string :=
  string_of_list_ascii (take n (list_ascii_of_string s)).

Definition last_chars (n : nat) (s : string) : string :=
  let l := list_ascii_of_string s in
  string_of_list_ascii (drop (length l - n) l).

(** A hexadecimal chain id: ["0x"] and then one hexadecimal digit or more. *)
Definition all_hex_digits (r : string) : bool :=
  forallb (fun c => bool_decide (is_Some (Js.hex_digit c))) (list_ascii_of_string r).

Definition hex_chain_id (s : string) : bool :=
  match s with
  | String c1 (String c2 r) =>
      Ascii.eqb c1 "0" && Ascii.eqb c2 "x" && negb (String.eqb r "") &&
      all_hex_digits r
  | _ => false
  end.

(** The number a hexadecimal chain id writes: each digit counts for its
    value times sixteen to the number of digits after it. *)
Fixpoint hex_value (r : string) : Z :=
  match r with
  | String c r' =>
      default 0 (Js.hex_digit c) * 16 ^ Z.of_nat (String.length r') + hex_value r'
  | EmptyString => 0
  end.

Definition chain_id_value (s : string) : Z :=
  match s with
  | String _ (String _ r) => hex_value r
  | _ => 0
  end.

(** The network table of the specification. *)
Definition network_label (id : Z) : string :=
  if decide (id = 1) then "Ethereum Mainnet"
  else if decide (id = 11155111) then "Sepolia Testnet"
  else if decide (id = 137) then "Polygon"
  else if decide (id = 80001) then "Mumbai Testnet"
  else "Chain ID: " ++ pretty id.

(** The balance read for [a] fails in [w]: the provider answers it with an
    exception, or there is no provider to build the reader from. *)
Definition balance_read_fails (w : World) (a : string) : bool :=
  match window_ethereum w with
  | Some p =>
      match getBalance p a with
      | Throw _ => true
      | Normal _ => false
      end
  | None => true
  end.

(** ** Consistency of a session *)

(** The state object and the registered listeners fit together: listeners
    are recorded exactly while the status is [Connected], they are then the
    only ones registered, the provider is there to take them back, every data
    field is present and [error] is absent; otherwise nothing is registered
    and every data field is absent. *)
Definition session_consistent (w : World) : Prop :=
  match _listeners (store w) with
  | Some l =>
      status (store w) = Connected /\ is_Some (window_ethereum w) /\
      registered w = [(accountsChanged, onAccountsChanged_ref l);
                      (chainChanged, onChainChanged_ref l)] /\
      is_Some (address (store w)) /\ is_Some (balance (store w)) /\
      is_Some (network (store w)) /\ is_Some (chainId (store w)) /\
      error (store w) = None
  | None =>
      status (store w) <> Connected /\ registered w = [] /\
      address (store w) = None /\ balance (store w) = None /\
      network (store w) = None /\ chainId (store w) = None
  end.

(** The same happenings on the hook. *)
Record HookRunning := mkHookRunning {
  hook_now : HookState;
  hook_in_flight : list Provider
}.

Definition hook_step (r : HookRunning) (o : op) : HookRunning :=
  match o with
  | op_connect eth =>
      match useWallet_connect_begin eth (hook_now r) with
      | (Normal (Some provider), h) => mkHookRunning h (hook_in_flight r ++ [provider])
      | (_, h) => mkHookRunning h (hook_in_flight r)
      end
  | op_settle i =>
      match hook_in_flight r !! i with
      | Some provider =>
          mkHookRunning (exec (useWallet_connect_resume provider) (hook_now r))
                        (delete i (hook_in_flight r))
      | None => r
      end
  | op_disconnect => mkHookRunning (exec useWallet_disconnect (hook_now r)) (hook_in_flight r)
  end.

Definition hook_run (ops : list op) (r : HookRunning) : HookRunning :=
  fold_left hook_step ops r.

Definition initial_hook_running : HookRunning := mkHookRunning initial_hook [].

(** What holds of a session whose calls of [connect] are kept apart: at most
    one waits for the provider, and while one does the status is not
    [Connected], the provider it asked is still injected and no error is
    shown. *)
Definition one_at_a_time (r : Running) : Prop :=
  (length (in_flight r) <= 1)%nat /\
  (in_flight r <> [] ->
   status (store (session r)) <> Connected /\
   is_Some (window_ethereum (session r)) /\
   error (store (session r)) = None).

(** The hook and the store show the same session: same address, balance,
    network and status, and an error message in the one iff in the other. *)
Definition same_session (w : World) (h : HookState) : Prop :=
  hook_address h = address (store w) /\
  hook_balance h = balance (store w) /\
  hook_network h = network (store w) /\
  hook_status h = status (store w) /\
  (is_Some (hook_error h) <-> is_Some (error (store w))).

(** ** The helpers of [TxHistory.jsx] and [SendEth.jsx] *)

(** [s.startsWith(p)] and [s.includes(searchString)]. *)
Fixpoint starts_with (s p : string) : bool :=
  match p, s with
  | EmptyString, _ => true
  | String c p', String d s' => Ascii.eqb c d && starts_with s' p'
  | String _ _, EmptyString => false
  end.

Fixpoint includes (s searchString : string) : bool :=
  starts_with s searchString ||
  match s with
  | String _ s' => includes s' searchString
  | EmptyString => false
  end.

(** [short] of [TxHistory.jsx]:
    [addr ? `${addr.slice(0, 6)}...${addr.slice(-4)}` : '—'] *)
Definition short (addr : option string) : string :=
  match addr with
  | Some a =>
      if Js.truthy (Some a)
      then Js.slice a 0 (Some 6) ++ "..." ++ Js.slice a (-4) None
      else "—"
  | None => "—"
  end.

(** [err.code === 4001] *)
Definition is_user_rejection (err : Exn) : bool :=
  match code err with
  | CodeNumber 4001 => true
  | _ => false
  end.

Definition friendlyError (err : Exn) : option string :=
  let msg := Js.or_else (message err) "" in
  if is_user_rejection err then None
  else if includes msg "INSUFFICIENT_FUNDS" || includes msg "insufficient funds" then
    Some "Insufficient funds. Remember gas fees are deducted on top of the amount you send."
  else if includes msg "invalid address" || includes msg "bad address" then
    Some "Invalid recipient address. Double-check it starts with 0x and is 42 characters."
  else if includes msg "network" || includes msg "could not detect" then
    Some "Network error. Check your MetaMask is on Sepolia and try again."
  else if includes msg "nonce" then
    Some "Transaction conflict. Try again in a few seconds."
  else if includes msg "gas" then
    Some "Gas estimation failed. The transaction may not be valid."
  else Some "Transaction failed. Please try again.".

(** The messages [friendlyError] can give. *)
Definition friendly_messages : list string :=
  [ "Insufficient funds. Remember gas fees are deducted on top of the amount you send.";
    "Invalid recipient address. Double-check it starts with 0x and is 42 characters.";
    "Network error. Check your MetaMask is on Sepolia and try again.";
    "Transaction conflict. Try again in a few seconds.";
    "Gas estimation failed. The transaction may not be valid.";
    "Transaction failed. Please try again." ].

(** ** The send form of [SendEth.jsx] *)

Inductive Stage := IDLE | CONFIRMING | MINING | SUCCESS | ERROR.

(** The five [useState] cells of the component. *)
Record SendForm := mkSendForm {
  toAddress : string;
  amount : string;
  stage : Stage;
  txHash : option string;
  errorMsg : option string
}.

(** What the wallet answers to [signer.sendTransaction({to, value})] and to
    [tx.wait()], the latter with [receipt.hash]. *)
Record Wallet := mkWallet {
  sendTransaction : string -> Z -> completion unit;
  wait : completion string
}.

(** The component next to the store it reads and refreshes. *)
Record Page := mkPage { form : SendForm; world : World }.

Definition in_world {A} (m : M World A) : M Page A :=
  fun pg => let '(r, w') := m (world pg) in (r, mkPage (form pg) w').

Definition in_form (f : SendForm -> SendForm) : M Page unit :=
  modify (fun pg => mkPage (f (form pg)) (world pg)).

Definition setStage (v : Stage) : M Page unit :=
  in_form (fun f => mkSendForm (toAddress f) (amount f) v (txHash f) (errorMsg f)).
Definition setTxHash (v : option string) : M Page unit :=
  in_form (fun f => mkSendForm (toAddress f) (amount f) (stage f) v (errorMsg f)).
Definition setErrorMsg (v : option string) : M Page unit :=
  in_form (fun f => mkSendForm (toAddress f) (amount f) (stage f) (txHash f) v).

(** [validate()] as a function of the recipient, the amount and the balance
    it reads, and [ethers.parseEther]: they go through [ethers.isAddress] and
    floating-point numbers and are left abstract. *)
Variable validate : string -> string -> option string -> option string.
Variable parseEther : string -> completion Z.

(** [sendEth], run to its end. *)
Definition sendEth (wallet : Wallet) : M Page unit :=
  pg ← get_state;
  let validationError :=
    validate (toAddress (form pg)) (amount (form pg)) (balance (store (world pg))) in
  if Js.truthy validationError then setErrorMsg validationError
  else
    setErrorMsg None;;
    try_catch
      (provider ← in_world new_BrowserProvider;
       in_world (request Call_getSigner (getSigner provider));;
       setStage CONFIRMING;;
       value ← await (parseEther (amount (form pg)));
       await (sendTransaction wallet (toAddress (form pg)) value);;
       setStage MINING;;
       hash ← await (wait wallet);
       setTxHash (Some hash);;
       setStage SUCCESS;;
       in_world refreshBalance)
      (fun err =>
         if is_user_rejection err then setStage IDLE
         else setErrorMsg (friendlyError err);; setStage ERROR).

(** The answers [sendEth] meets inside its [try] block, in the order it
    awaits them: the hash of the receipt, or the first exception. *)
Definition send_outcome (wallet : Wallet) (pg : Page) : completion string :=
  match window_ethereum (world pg) with
  | None => Throw (mkExn (CodeString "INVALID_ARGUMENT") (Some "invalid EIP-1193 provider"))
  | Some provider =>
      match getSigner provider with
      | Throw e => Throw e
      | Normal _ =>
          match parseEther (amount (form pg)) with
          | Throw e => Throw e
          | Normal value =>
              match sendTransaction wallet (toAddress (form pg)) value with
              | Throw e => Throw e
              | Normal _ => wait wallet
              end
          end
      end
  end.

(** [isBusy] *)
Definition isBusy (f : SendForm) : bool :=
  match stage f with
  | CONFIRMING | MINING => true
  | _ => false
  end.

(** ** The history list of [TxHistory.jsx] *)

(** A value that [response.json()] can give. *)
#[warnings="-register-all"]
Inductive json :=
| JNull
| JBool (b : bool)
| JNumber (z : Z)
| JString (s : string)
| JArray (items : list json)
| JObject (fields : list (string * json)).

(** The value [JSON.parse] keeps for a key: the last one written. *)
Fixpoint last_field (fields : list (string * json)) (k : string) : option json :=
  match fields with
  | [] => None
  | (k', v) :: rest =>
      match last_field rest k with
      | Some v' => Some v'
      | None => if String.eqb k' k then Some v else None
      end
  end.

(** [data.k] for one of the keys the component reads: a [TypeError] on
    [null], the field of an object, [undefined] ([None]) on anything else. *)
Definition get_field {Σ} (data : json) (k : string) : M Σ (option json) :=
  match data with
  | JNull => throw (mkExn CodeUndefined (Some "Cannot read properties of null"))
  | JObject fields => mret (last_field fields k)
  | _ => mret None
  end.

(** [v === s] for a string literal [s]. *)
Definition is_string (v : option json) (s : string) : bool :=
  match v with
  | Some (JString s') => String.eqb s' s
  | _ => false
  end.

(** [v?.includes(s)], as a condition: [undefined] (falsy) when [v] is [null]
    or [undefined], the substring test on a string, the membership test on
    an array, and a [TypeError] on anything else, which has no such method. *)
Definition optional_includes {Σ} (v : option json) (s : string) : M Σ bool :=
  match v with
  | None | Some JNull => mret false
  | Some (JString s') => mret (includes s' s)
  | Some (JArray items) =>
      mret (existsb (fun j => match j with JString s' => String.eqb s' s | _ => false end)
                    items)
  | Some _ => throw (mkExn CodeUndefined (Some "data.result?.includes is not a function"))
  end.

(** [try { m } finally { f }] *)
Definition try_finally {Σ A} (m : M Σ A) (f : M Σ unit) : M Σ A :=
  fun σ =>
    match m σ with
    | (r, σ') =>
        match f σ' with
        | (Normal _, σ'') => (r, σ'')
        | (Throw e, σ'') => (Throw e, σ'')
        end
    end.

(** The four [useState] cells of the component; [txs] holds whatever
    [data.result] was, [None] standing for [undefined]. *)
Record History := mkHistory {
  txs : option json;
  loading : bool;
  txError : option string;
  fetched : bool
}.

Definition initial_history : History := mkHistory (Some (JArray [])) false None false.

Definition setTxs (v : option json) : M History unit :=
  modify (fun h => mkHistory v (loading h) (txError h) (fetched h)).
Definition setLoading (v : bool) : M History unit :=
  modify (fun h => mkHistory (txs h) v (txError h) (fetched h)).
Definition setTxError (v : option string) : M History unit :=
  modify (fun h => mkHistory (txs h) (loading h) v (fetched h)).
Definition setFetched (v : bool) : M History unit :=
  modify (fun h => mkHistory (txs h) (loading h) (txError h) v).

(** [fetchHistory], run to its end, for the address the store shows, the key
    of the environment and what [fetch(...)] followed by [response.json()]
    gives. *)
Definition fetchHistory (address ETHERSCAN_KEY : option string) (response : completion json)
  : M History unit :=
  if negb (Js.truthy address) then mret tt
  else if negb (Js.truthy ETHERSCAN_KEY) then
    setTxError (Some "Missing VITE_ETHERSCAN_API_KEY in .env file. See instructions above.");;
    setFetched true
  else
    setLoading true;;
    setTxError None;;
    try_finally
      (try_catch
         (data ← await response;
          status_ ← get_field data "status";
          if is_string status_ "1" then
            result ← get_field data "result";
            setTxs result
          else
            message_ ← get_field data "message";
            if is_string message_ "No transactions found" then setTxs (Some (JArray []))
            else
              result ← get_field data "result";
              invalid_key ← optional_includes result "Invalid API Key";
              if (invalid_key : bool) then
                setTxError (Some "Invalid Etherscan API key. Check your .env file.")
              else
                rate_limited ← optional_includes result "rate limit";
                if (rate_limited : bool) then
                  setTxError (Some "Rate limited. Wait a moment and refresh.")
                else
                  setTxError (Some "Could not fetch transactions. Try refreshing."))
         (fun _ =>
            setTxError (Some "Network error. Check your connection and try again.")))
      (setLoading false;;
       setFetched true).

(** The effect run when [address] changes. *)
Definition onAddressChange (address ETHERSCAN_KEY : option string)
    (response : completion json) : M History unit :=
  if Js.truthy address then fetchHistory address ETHERSCAN_KEY response
  else
    setTxs (Some (JArray []));;
    setFetched false;;
    setTxError None.

(** The response lists transactions, or says there are none. *)
Definition lists_transactions (response : completion json) : bool :=
  match response with
  | Normal (JObject fields) =>
      is_string (last_field fields "status") "1" ||
      is_string (last_field fields "message") "No transactions found"
  | _ => false
  end.

(** ** The token form of [TokenChecker.jsx] *)








(** [ethers.isAddress], and the rendering of a token balance: a hash and
    floating-point numbers, left abstract.  [formatUnits] is
    [ethers.formatUnits(raw, decimals)], which throws when it refuses its
    arguments (more than 80 decimals, for one); [formatToken] is
    [parseFloat(_).toLocaleString('en-US', ...)] of its text and
    [hasTokenBalance] is [parseFloat(_) > 0]. *)
Variable isAddress : option string -> bool.
Variable formatUnits : Z -> Z -> completion string.
Variable formatToken : string -> string.
Variable hasTokenBalance : string -> bool.





(** ** Sample wallets and responses *)

Definition confirming_wallet : Wallet :=
  mkWallet (fun _ _ => Normal tt)
           (Normal "0x5c504ed432cb51138bcf09aa5e8a410dd4a1e204ef84bfed1be16dfba1b22060").

Definition declining_wallet : Wallet :=
  mkWallet (fun _ _ => Throw (mkExn (CodeNumber 4001) (Some "User rejected the request.")))
           (Normal "").

Definition sample_send_form : SendForm :=
  mkSendForm "0x779877A7B0D9E8603169DdbD7836e478b462478b" "0.01" IDLE None None.



Definition history_page : json :=
  JObject [("status", JString "1"); ("message", JString "OK");
           ("result", JArray [JObject [("hash", JString "0x01"); ("value", JString "1000")]])].

Definition rate_limited_page : json :=
  JObject [("status", JString "0"); ("message", JString "NOTOK");
           ("result", JString "Max rate limit reached")].

(** ** Properties *)

Ltac unfold_actions :=
  unfold exec, connect, connect_resume, connect_try, connect_catch, connect_begin,
    disconnect, refreshBalance, onAccountsChanged, onChainChanged, getShortAddress,
    startListeners, stopListeners, new_BrowserProvider, new_closure, on,
    removeListener, request, issue, set, get, get_state, modify, await, throw, try_catch,
    with_store, with_window_ethereum, mbind, mret, M_bind, M_ret in *.

Lemma stopListeners_none (w : World) :
  _listeners (store w) = None -> stopListeners w = (Normal tt, w).
Proof.
  intros H. unfold_actions. rewrite H. reflexivity.
Qed.

Lemma disconnect_listeners_none (w : World) :
  _listeners (store w) = None ->
  disconnect w =
    (Normal tt, mkWorld initial_store (window_ethereum w) (registered w) (calls w) (closures w)).
Proof.
  intros H. unfold_actions. rewrite H. cbn. rewrite H. reflexivity.
Qed.

Lemma disconnect_twice (w : World) :
  exec disconnect (exec disconnect w) = exec disconnect w.
Proof.
  destruct (_listeners (store (exec disconnect w))) eqn:E.
  - revert E. unfold_actions.
    destruct w as [[a b n c st e [ls|]] [p|] reg cl k]; cbn; try discriminate.
    intros _. reflexivity.
  - unfold exec at 1. rewrite (disconnect_listeners_none _ E). cbn.
    revert E. unfold_actions.
    destruct w as [[a b n c st e [ls|]] [p|] reg cl k]; cbn; try discriminate; reflexivity.
Qed.

(** C4: [disconnect] is idempotent: from every state, calling it twice in a
    row leaves the same state (state object, registered listeners, request
    log) as calling it once; and [stopListeners] does nothing when no
    listeners are recorded. *)
Theorem disconnect_idempotent :
  (forall w, exec disconnect (exec disconnect w) = exec disconnect w) /\
  (forall w, _listeners (store w) = None -> stopListeners w = (Normal tt, w)).
Proof.
  split; [apply disconnect_twice | apply stopListeners_none].
Qed.

(** C5: an account-changed notification with an empty list does exactly
    what an explicit [disconnect] does, from every state and so from every
    connected one: same outcome, same state object, same registered
    listeners, same request log. *)
Theorem accountsChanged_empty_is_disconnect (w : World) :
  onAccountsChanged [] w = disconnect w /\
  store (exec (onAccountsChanged []) w) = store (exec disconnect w).
Proof.
  split; reflexivity.
Qed.

(** C6: while [address] is absent [refreshBalance] does nothing: the state
    object, the registered listeners and the log of provider requests are
    all unchanged. *)
Theorem refreshBalance_absent_noop (w : World) :
  address (store w) = None ->
  refreshBalance w = (Normal tt, w) /\
  store (exec refreshBalance w) = store w /\
  calls (exec refreshBalance w) = calls w.
Proof.
  intros H.
  assert (E : refreshBalance w = (Normal tt, w)).
  { unfold_actions. rewrite H. reflexivity. }
  unfold exec. rewrite E. auto.
Qed.

(** C7: with an address present, a failing balance read leaves the state
    object as it was: [balance], [status] and [error] keep their values and
    [refreshBalance] returns normally. *)
Theorem refreshBalance_failure_silent (w : World) (a : string) :
  address (store w) = Some a ->
  balance_read_fails w a = true ->
  fst (refreshBalance w) = Normal tt /\
  store (exec refreshBalance w) = store w /\
  balance (store (exec refreshBalance w)) = balance (store w) /\
  status (store (exec refreshBalance w)) = status (store w) /\
  error (store (exec refreshBalance w)) = error (store w).
Proof.
  intros Ha Hf.
  assert (E : fst (refreshBalance w) = Normal tt /\ store (exec refreshBalance w) = store w).
  { unfold balance_read_fails in Hf. unfold_actions. rewrite Ha.
    destruct (Js.truthy (Some a)); [|auto].
    destruct (window_ethereum w) as [p|] eqn:Ep; cbn; [|auto].
    destruct (getBalance p a) as [raw|e]; [discriminate|]. cbn. auto. }
  destruct E as [E1 E2]. rewrite E2. auto.
Qed.

(** *** What one call of [connect] does *)

Lemma handshake_normal (p : Provider) a raw c :
  handshake p = Normal (a, raw, c) ->
  eth_requestAccounts p = Normal tt /\ getSigner p = Normal tt /\
  getAddress p = Normal a /\ getBalance p a = Normal raw /\ getNetwork p = Normal c.
Proof.
  unfold handshake.
  destruct (eth_requestAccounts p) as [[]|]; [|discriminate].
  destruct (getSigner p) as [[]|]; [|discriminate].
  destruct (getAddress p) as [a'|]; [|discriminate].
  destruct (getBalance p a') as [raw'|] eqn:Eb; [|discriminate].
  destruct (getNetwork p) as [c'|]; [|discriminate].
  intros [= -> -> ->]. auto.
Qed.

Lemma connect_begin_absent (w : World) :
  window_ethereum w = None ->
  connect_begin w =
    (Normal None,
     with_store (fun s => mkStore (address s) (balance s) (network s) (chainId s) Error
                  (Some "MetaMask not found. Install it at metamask.io") (_listeners s)) w).
Proof.
  intros H. destruct w as [s eth reg cl k]; cbn in *; subst. reflexivity.
Qed.

Lemma connect_begin_present (w : World) (p : Provider) :
  window_ethereum w = Some p ->
  connect_begin w =
    (Normal (Some p),
     mkWorld (mkStore (address (store w)) (balance (store w)) (network (store w))
                      (chainId (store w)) Connecting None (_listeners (store w)))
             (Some p) (registered w) (calls w ++ [Call_requestAccounts]) (closures w)).
Proof.
  intros H. destruct w as [s eth reg cl k]; cbn in *; subst. reflexivity.
Qed.

Lemma connect_resume_success (w : World) (p q : Provider) a raw c :
  window_ethereum w = Some q ->
  handshake p = Normal (a, raw, c) ->
  connect_resume p w =
    (Normal tt,
     mkWorld (mkStore (Some a) (Some (formatEther4 raw)) (Some (network_name (Js.Num c)))
                      (Some (Js.Num c)) Connected (error (store w))
                      (Some (mkListeners (closures w) (S (closures w)))))
             (Some q)
             (registered w ++ [(accountsChanged, closures w); (chainChanged, S (closures w))])
             (calls w ++ [Call_getSigner; Call_getAddress; Call_getBalance a; Call_getNetwork])
             (S (S (closures w)))).
Proof.
  intros Hw Hp.
  destruct (handshake_normal _ _ _ _ Hp) as (H1 & H2 & H3 & H4 & H5).
  destruct w as [s eth reg cl k]; cbn in *; subst.
  unfold_actions. rewrite H1. cbn. rewrite H2. cbn. rewrite H3. cbn.
  rewrite H4. cbn. rewrite H5. cbn.
  rewrite <- !app_assoc. reflexivity.
Qed.

Lemma connect_resume_failure (w : World) (p : Provider) (e : Exn) :
  handshake p = Throw e ->
  fst (connect_resume p w) = Normal tt /\
  store (exec (connect_resume p) w) =
    mkStore (address (store w)) (balance (store w)) (network (store w)) (chainId (store w))
            Error (Some (connect_error_message "Something went wrong." e))
            (_listeners (store w)) /\
  window_ethereum (exec (connect_resume p) w) = window_ethereum w /\
  registered (exec (connect_resume p) w) = registered w.
Proof.
  unfold handshake. unfold_actions.
  destruct (eth_requestAccounts p) as [[]|]; cbn; [|intros [= ->]; auto].
  destruct (getSigner p) as [[]|]; cbn; [|intros [= ->]; auto].
  destruct (getAddress p) as [a'|]; cbn; [|intros [= ->]; auto].
  destruct (getBalance p a') as [raw'|]; cbn; [|intros [= ->]; auto].
  destruct (getNetwork p) as [c'|]; cbn; [|intros [= ->]; auto].
  discriminate.
Qed.

Lemma connect_absent (w : World) :
  window_ethereum w = None ->
  connect w =
    (Normal tt,
     with_store (fun s => mkStore (address s) (balance s) (network s) (chainId s) Error
                  (Some "MetaMask not found. Install it at metamask.io") (_listeners s)) w).
Proof.
  intros H. unfold connect. unfold mbind, M_bind at 1.
  rewrite (connect_begin_absent _ H). reflexivity.
Qed.

Lemma connect_present (w : World) (p : Provider) :
  window_ethereum w = Some p ->
  connect w =
    connect_resume p
      (mkWorld (mkStore (address (store w)) (balance (store w)) (network (store w))
                        (chainId (store w)) Connecting None (_listeners (store w)))
               (Some p) (registered w) (calls w ++ [Call_requestAccounts]) (closures w)).
Proof.
  intros H. unfold connect. unfold mbind, M_bind at 1.
  rewrite (connect_begin_present _ _ H). reflexivity.
Qed.

Lemma useWallet_connect_failure (h : HookState) (p : Provider) (e : Exn) :
  handshake p = Throw e ->
  exec (useWallet_connect (Some p)) h =
    mkHook (hook_address h) (hook_balance h) (hook_network h) Error
           (Some (connect_error_message "Something went wrong" e)).
Proof.
  unfold handshake, useWallet_connect, setStatus, setError, setAddress, setBalance,
    setNetwork.
  unfold_actions.
  destruct (eth_requestAccounts p) as [[]|]; cbn; [|intros [= ->]; auto].
  destruct (getSigner p) as [[]|]; cbn; [|intros [= ->]; auto].
  destruct (getAddress p) as [a'|]; cbn; [|intros [= ->]; auto].
  destruct (getBalance p a') as [raw'|]; cbn; [|intros [= ->]; auto].
  destruct (getNetwork p) as [c'|]; cbn; [|intros [= ->]; auto].
  discriminate.
Qed.

Lemma connect_error_message_nonempty (fallback : string) (err : Exn) :
  fallback <> "" -> connect_error_message fallback err <> "".
Proof.
  intros Hf.
  assert (Ho : Js.or_else (message err) fallback <> "").
  { unfold Js.or_else, Js.truthy. destruct (message err) as [m|]; [|exact Hf].
    destruct (String.eqb_spec m "") as [E|E]; cbn; [exact Hf|exact E]. }
  unfold connect_error_message.
  destruct (code err) as [|z|]; try exact Ho.
  destruct z as [|q|q]; try exact Ho.
  repeat (destruct q as [q|q|]; try exact Ho). discriminate.
Qed.

(** C1, as the code has it: when the provider rejects the account request,
    whatever the exception that reaches the [catch] block (behind
    [ethers.BrowserProvider] a wallet's code 4001 arrives as
    ['ACTION_REJECTED']), [connect] ends in status [Error] with a non-empty
    message in [error]: the rejection is shown as an error, not passed over
    in [Idle].  The store and the hook agree. *)
Theorem connect_user_rejection_is_error
    (w : World) (h : HookState) (p : Provider) (e : Exn) :
  window_ethereum w = Some p ->
  handshake p = Throw e ->
  status (store (exec connect w)) = Error /\
  (exists m, error (store (exec connect w)) = Some m /\ m <> "") /\
  hook_status (exec (useWallet_connect (Some p)) h) = Error /\
  (exists m, hook_error (exec (useWallet_connect (Some p)) h) = Some m /\ m <> "").
Proof.
  intros Hw Hp.
  rewrite (useWallet_connect_failure h p e Hp).
  assert (Hs : store (exec connect w) =
               mkStore (address (store w)) (balance (store w)) (network (store w))
                       (chainId (store w)) Error
                       (Some (connect_error_message "Something went wrong." e))
                       (_listeners (store w))).
  { unfold exec. rewrite (connect_present _ _ Hw).
    match goal with |- context [connect_resume p ?w0] =>
      destruct (connect_resume_failure w0 p e Hp) as (_ & Hs & _) end.
    exact Hs. }
  rewrite Hs. cbn.
  split; [reflexivity|]. split.
  - eexists. split; [reflexivity|]. apply connect_error_message_nonempty. discriminate.
  - split; [reflexivity|].
    eexists. split; [reflexivity|]. apply connect_error_message_nonempty. discriminate.
Qed.

(** C9: with no provider injected [connect] ends in status [Error] with a
    non-empty [error]; a later [connect] whose requests all succeed sets
    [error] back to absent and ends in status [Connected]. *)
Theorem connect_absent_then_success (w : World) (p : Provider) a raw c :
  window_ethereum w = None ->
  handshake p = Normal (a, raw, c) ->
  let w1 := exec connect w in
  let w2 := exec connect (with_window_ethereum (Some p) w1) in
  status (store w1) = Error /\
  (exists m, error (store w1) = Some m /\ m <> "") /\
  error (store w2) = None /\
  status (store w2) = Connected.
Proof.
  intros Hw Hp. cbv zeta.
  assert (E1 : exec connect w =
               with_store (fun s => mkStore (address s) (balance s) (network s) (chainId s)
                 Error (Some "MetaMask not found. Install it at metamask.io")
                 (_listeners s)) w).
  { unfold exec. rewrite (connect_absent _ Hw). reflexivity. }
  rewrite E1. cbn.
  split; [reflexivity|]. split; [eexists; split; [reflexivity|discriminate]|].
  unfold exec. erewrite connect_present by reflexivity.
  erewrite connect_resume_success by (try reflexivity; eassumption).
  cbn. auto.
Qed.

Lemma prompts_snoc (w : World) (s : Store) eth reg k :
  prompts (mkWorld s eth reg (calls w ++ [Call_requestAccounts]) k) = S (prompts w).
Proof.
  unfold prompts. cbn [calls]. rewrite filter_app, length_app.
  rewrite filter_cons_True by reflexivity. cbn. lia.
Qed.

(** C3, as the code has it: [connect] has no guard on the status.  Invoked
    while the status is [Connecting] (with the provider injected) it asks
    the provider for account access once more, and every call that then
    completes registers a pair of listeners of its own, the state object
    remembering only the latest pair. *)
Theorem connect_while_connecting_prompts_again (w : World) (p : Provider) :
  window_ethereum w = Some p ->
  status (store w) = Connecting ->
  fst (connect_begin w) = Normal (Some p) /\
  status (store (exec connect_begin w)) = Connecting /\
  prompts (exec connect_begin w) = S (prompts w) /\
  (forall (w' : World) (q : Provider) a raw c,
      window_ethereum w' = Some q ->
      handshake p = Normal (a, raw, c) ->
      let w'' := exec (connect_resume p) w' in
      registered w'' =
        (registered w' ++
           [(accountsChanged, closures w'); (chainChanged, S (closures w'))])%list /\
      _listeners (store w'') = Some (mkListeners (closures w') (S (closures w')))).
Proof.
  intros Hw Hs.
  unfold exec. rewrite (connect_begin_present _ _ Hw). cbn [fst snd store status].
  split; [reflexivity|]. split; [reflexivity|]. split; [apply prompts_snoc|].
  intros w' q a raw c Hw' Hp.
  rewrite (connect_resume_success _ _ _ _ _ _ Hw' Hp). cbn. auto.
Qed.

(** *** Sequences of [connect] and [disconnect] *)

Lemma connect_outcome (w : World) :
  (status (store (exec connect w)) = Connected /\
   is_Some (address (store (exec connect w)))) \/
  (status (store (exec connect w)) = Error /\
   address (store (exec connect w)) = address (store w)).
Proof.
  destruct (window_ethereum w) as [p|] eqn:Hw.
  - unfold exec. rewrite (connect_present _ _ Hw).
    destruct (handshake p) as [[[a raw] c]|e] eqn:Hp.
    + left. erewrite connect_resume_success by (try reflexivity; eassumption).
      cbn. eauto.
    + right.
      match goal with |- context [connect_resume p ?w0] =>
        destruct (connect_resume_failure w0 p e Hp) as (_ & Hs & _) end.
      unfold exec in Hs. rewrite Hs. cbn. auto.
  - right. unfold exec. rewrite (connect_absent _ Hw). cbn. auto.
Qed.

Lemma disconnect_outcome (w : World) :
  store (exec disconnect w) = store w \/
  (status (store (exec disconnect w)) = Idle /\
   address (store (exec disconnect w)) = None).
Proof.
  unfold_actions.
  destruct w as [[a b n c st e [ls|]] [p|] reg cl k]; cbn; auto.
Qed.

Lemma step_connect_absent (r : Running) :
  step r (op_connect None) =
    mkRunning
      (mkWorld (mkStore (address (store (session r))) (balance (store (session r)))
                        (network (store (session r))) (chainId (store (session r))) Error
                        (Some "MetaMask not found. Install it at metamask.io")
                        (_listeners (store (session r))))
               None (registered (session r)) (calls (session r)) (closures (session r)))
      (in_flight r).
Proof.
  cbn [step]. rewrite connect_begin_absent by reflexivity. reflexivity.
Qed.

Lemma step_connect_present (r : Running) (p : Provider) :
  step r (op_connect (Some p)) =
    mkRunning
      (mkWorld (mkStore (address (store (session r))) (balance (store (session r)))
                        (network (store (session r))) (chainId (store (session r)))
                        Connecting None (_listeners (store (session r))))
               (Some p) (registered (session r))
               (calls (session r) ++ [Call_requestAccounts]) (closures (session r)))
      (in_flight r ++ [p]).
Proof.
  cbn [step]. erewrite connect_begin_present by reflexivity. reflexivity.
Qed.

(** A call of [connect] on its own is the call followed by its settling. *)
Lemma connect_is_call_then_settle (eth : option Provider) (w : World) :
  run_ops [op_connect eth; op_settle 0] (mkRunning w []) =
  mkRunning (exec connect (with_window_ethereum eth w)) [].
Proof.
  unfold run_ops. cbn [fold_left]. destruct eth as [p|].
  - rewrite step_connect_present. cbn [step in_flight app lookup list_lookup session].
    unfold exec at 2. erewrite connect_present by reflexivity. reflexivity.
  - rewrite step_connect_absent. cbn [step in_flight lookup list_lookup].
    unfold exec. rewrite connect_absent by reflexivity. reflexivity.
Qed.

Lemma connect_resume_connected (p : Provider) (w : World) :
  status (store (exec (connect_resume p) w)) = Connected ->
  is_Some (address (store (exec (connect_resume p) w))).
Proof.
  destruct (handshake p) as [[[a raw] c]|e] eqn:Hp.
  - destruct (handshake_normal _ _ _ _ Hp) as (H1 & H2 & H3 & H4 & H5).
    unfold_actions. rewrite H1. cbn. rewrite H2. cbn. rewrite H3. cbn.
    rewrite H4. cbn. rewrite H5. cbn.
    destruct (window_ethereum w); cbn; [eauto|discriminate].
  - destruct (connect_resume_failure w p e Hp) as (_ & Hs & _).
    rewrite Hs. cbn. discriminate.
Qed.

Lemma disconnect_effect (w : World) :
  window_ethereum (exec disconnect w) = window_ethereum w /\
  (store (exec disconnect w) = store w \/
   (status (store (exec disconnect w)) = Idle /\
    address (store (exec disconnect w)) = None /\
    error (store (exec disconnect w)) = None)).
Proof.
  unfold_actions.
  destruct w as [[a b n c st e [ls|]] [p|] reg cl k]; cbn; auto.
Qed.

Lemma in_flight_single (l : list Provider) (i : nat) (p : Provider) :
  (length l <= 1)%nat -> l !! i = Some p -> i = 0%nat /\ l = [p].
Proof.
  destruct l as [|q [|q' l]]; cbn; intros Hl Hi; try discriminate; try lia.
  destruct i as [|i]; cbn in Hi; [|discriminate].
  injection Hi as ->. auto.
Qed.

Lemma connected_has_address_run (ops : list op) : forall r,
  (status (store (session r)) = Connected -> is_Some (address (store (session r)))) ->
  status (store (session (run_ops ops r))) = Connected ->
  is_Some (address (store (session (run_ops ops r)))).
Proof.
  induction ops as [|o ops IH]; intros r Hr; [exact Hr|].
  cbn. apply IH. destruct o as [eth|i|].
  - destruct eth as [p|].
    + rewrite step_connect_present. cbn. discriminate.
    + rewrite step_connect_absent. cbn. discriminate.
  - cbn [step]. destruct (in_flight r !! i) as [p|]; [|exact Hr].
    cbn [session]. apply connect_resume_connected.
  - cbn [step session].
    destruct (disconnect_effect (session r)) as [_ [Hs|[Hs _]]].
    + rewrite Hs. exact Hr.
    + rewrite Hs. discriminate.
Qed.

Lemma one_at_a_time_step (r : Running) (o : op) :
  one_at_a_time r ->
  match o with
  | op_connect _ => status (store (session r)) <> Connected /\ in_flight r = []
  | _ => True
  end ->
  one_at_a_time (step r o).
Proof.
  unfold one_at_a_time. intros [Hlen Hfl] Hg. destruct o as [eth|i|].
  - destruct Hg as [_ Hnil]. destruct eth as [p|].
    + rewrite step_connect_present. cbn. rewrite Hnil. cbn.
      split; [lia|]. intros _. split; [discriminate|]. split; [eauto|reflexivity].
    + rewrite step_connect_absent. cbn. rewrite Hnil. cbn.
      split; [lia|]. intros H. contradiction.
  - cbn [step]. destruct (in_flight r !! i) as [p|] eqn:Hi; [|auto].
    destruct (in_flight_single _ _ _ Hlen Hi) as [-> Hl]. rewrite Hl. cbn.
    split; [lia|]. intros H. contradiction.
  - cbn [step session in_flight]. split; [exact Hlen|]. intros Hne.
    destruct (Hfl Hne) as (Hst & Hw & He).
    destruct (disconnect_effect (session r)) as [Hwe [Hs|(Hs & _ & He')]].
    + rewrite Hwe, Hs. auto.
    + rewrite Hwe, Hs, He'. split; [discriminate|]. split; [exact Hw|reflexivity].
Qed.

Lemma guard_of_connects_apart (o : op) (ops : list op) (r : Running) :
  connects_apart (o :: ops) r = true ->
  match o with
  | op_connect _ => status (store (session r)) <> Connected /\ in_flight r = []
  | _ => True
  end /\ connects_apart ops (step r o) = true.
Proof.
  cbn [connects_apart]. intros H. apply andb_true_iff in H as [H1 H2].
  split; [|exact H2]. destruct o as [eth|i|]; try exact I.
  apply andb_true_iff in H1 as [Ha Hb].
  apply negb_true_iff, bool_decide_eq_false in Ha.
  split; [exact Ha|]. destruct (in_flight r); [reflexivity|discriminate].
Qed.

Lemma address_iff_connected_step (r : Running) (o : op) :
  one_at_a_time r ->
  (is_Some (address (store (session r))) <-> status (store (session r)) = Connected) ->
  match o with
  | op_connect _ => status (store (session r)) <> Connected /\ in_flight r = []
  | _ => True
  end ->
  (is_Some (address (store (session (step r o)))) <->
   status (store (session (step r o))) = Connected).
Proof.
  intros [Hlen Hfl] Hiff Hg.
  assert (Hnone : status (store (session r)) <> Connected ->
                  address (store (session r)) = None).
  { intros Hn. destruct (address (store (session r))) eqn:E; [|reflexivity].
    exfalso. apply Hn, Hiff. eauto. }
  destruct o as [eth|i|].
  - destruct Hg as [Hn _]. destruct eth as [p|].
    + rewrite step_connect_present. cbn. rewrite (Hnone Hn).
      split; [intros [x Hx]; discriminate | discriminate].
    + rewrite step_connect_absent. cbn. rewrite (Hnone Hn).
      split; [intros [x Hx]; discriminate | discriminate].
  - cbn [step]. destruct (in_flight r !! i) as [p|] eqn:Hi; [|exact Hiff].
    destruct (in_flight_single _ _ _ Hlen Hi) as [-> Hl].
    assert (Hne : in_flight r <> []) by (rewrite Hl; discriminate).
    destruct (Hfl Hne) as (Hst & [q Hq] & _). cbn [session].
    destruct (handshake p) as [[[a raw] c]|e] eqn:Hp.
    + unfold exec. rewrite (connect_resume_success _ _ _ _ _ _ Hq Hp). cbn.
      split; eauto.
    + destruct (connect_resume_failure (session r) p e Hp) as (_ & Hs & _).
      rewrite Hs. cbn. rewrite (Hnone Hst).
      split; [intros [x Hx]; discriminate | discriminate].
  - cbn [step session].
    destruct (disconnect_effect (session r)) as [_ [Hs|(Hs & Ha & _)]].
    + rewrite Hs. exact Hiff.
    + rewrite Hs, Ha. split; [intros [x Hx]; discriminate | discriminate].
Qed.

Lemma address_iff_connected_run (ops : list op) : forall r,
  one_at_a_time r ->
  (is_Some (address (store (session r))) <-> status (store (session r)) = Connected) ->
  connects_apart ops r = true ->
  (is_Some (address (store (session (run_ops ops r)))) <->
   status (store (session (run_ops ops r))) = Connected).
Proof.
  induction ops as [|o ops IH]; intros r Hone Hiff Hg; [exact Hiff|].
  destruct (guard_of_connects_apart _ _ _ Hg) as [Hgo Hrest].
  cbn. apply IH; [| |exact Hrest].
  - apply one_at_a_time_step; assumption.
  - apply address_iff_connected_step; assumption.
Qed.

Lemma one_at_a_time_initial (eth : option Provider) : one_at_a_time (initial_running eth).
Proof. unfold one_at_a_time. cbn. split; [lia|]. intros H. contradiction. Qed.

(** C2, as the code has it: take any course of [connect] calls, settlings of
    their account requests and [disconnect] calls from the initial state,
    calls of [connect] overlapping or not, whatever the provider answers.
    At its end status [Connected] implies that [address] is present; and
    [address] is present iff the status is [Connected] when no [connect] is
    called while the status is [Connected] or while an earlier [connect]
    still waits for the provider. *)
Theorem address_present_iff_connected (eth0 : option Provider) (ops : list op) :
  let w := session (run_ops ops (initial_running eth0)) in
  (status (store w) = Connected -> is_Some (address (store w))) /\
  (connects_apart ops (initial_running eth0) = true ->
   (is_Some (address (store w)) <-> status (store w) = Connected)).
Proof.
  cbv zeta. split.
  - apply connected_has_address_run. cbn. discriminate.
  - apply address_iff_connected_run; [apply one_at_a_time_initial|].
    cbn. split; [intros [x Hx]; discriminate | discriminate].
Qed.

(** *** Short address *)

Lemma length_list_ascii_of_string (s : string) :
  length (list_ascii_of_string s) = String.length s.
Proof. induction s as [|c s IH]; cbn; congruence. Qed.

Lemma substring_0_take (s : string) : forall n,
  String.substring 0 n s = string_of_list_ascii (take n (list_ascii_of_string s)).
Proof.
  induction s as [|c s IH]; intros [|n]; cbn; try reflexivity.
  now rewrite IH.
Qed.

Lemma substring_drop (s : string) : forall k,
  String.substring k (String.length s - k) s =
  string_of_list_ascii (drop k (list_ascii_of_string s)).
Proof.
  induction s as [|c s IH]; intros [|k]; cbn; try reflexivity.
  - rewrite substring_0_take, take_ge, string_of_list_ascii_of_string; [reflexivity|].
    rewrite length_list_ascii_of_string. lia.
  - apply IH.
Qed.

Lemma slice_first_6 (a : string) : Js.slice a 0 (Some 6) = first_chars 6 a.
Proof.
  unfold Js.slice, first_chars.
  change (0 <? 0) with false. change (6 <? 0) with false. cbv iota.
  pose proof (length_list_ascii_of_string a) as Hl.
  replace (Z.to_nat (Z.min 0 (Z.of_nat (String.length a)))) with 0%nat by lia.
  rewrite substring_0_take. f_equal.
  destruct (decide (String.length a <= 6)%nat) as [Hle|Hgt].
  - rewrite !take_ge by lia. reflexivity.
  - f_equal. lia.
Qed.

Lemma slice_last_4 (a : string) : Js.slice a (-4) None = last_chars 4 a.
Proof.
  unfold Js.slice, last_chars.
  change (-4 <? 0) with true. cbv iota.
  rewrite length_list_ascii_of_string.
  assert (Hlt : (Z.of_nat (String.length a) <? 0) = false) by (apply Z.ltb_ge; lia).
  rewrite Hlt.
  replace (Z.to_nat (Z.max (Z.of_nat (String.length a) + -4) 0))
    with (String.length a - 4)%nat by lia.
  replace (Z.to_nat _) with (String.length a - (String.length a - 4))%nat by lia.
  apply substring_drop.
Qed.

(** C10: for a state whose address, if present, is not the empty string,
    [getShortAddress] returns the absent value exactly when [address] is
    absent, and otherwise the first 6 characters of the address, then
    ["..."], then its last 4 characters; it leaves the state alone.  The
    hook's [shortAddress] is the same function of the hook's address. *)
Theorem getShortAddress_spec (w : World) (h : HookState) :
  address (store w) <> Some "" ->
  hook_address h <> Some "" ->
  (fst (getShortAddress w) = Normal None <-> address (store w) = None) /\
  (forall a, address (store w) = Some a ->
     getShortAddress w =
       (Normal (Some (first_chars 6 a ++ "..." ++ last_chars 4 a)), w)) /\
  (useWallet_shortAddress h = None <-> hook_address h = None) /\
  (forall a, hook_address h = Some a ->
     useWallet_shortAddress h = Some (first_chars 6 a ++ "..." ++ last_chars 4 a)).
Proof.
  intros Hw Hh.
  assert (Ht : forall a, a <> "" -> Js.truthy (Some a) = true).
  { intros a Ha. cbn. apply negb_true_iff, String.eqb_neq. exact Ha. }
  unfold useWallet_shortAddress. unfold_actions.
  destruct (address (store w)) as [a|] eqn:Ea; destruct (hook_address h) as [b|] eqn:Eb;
    try rewrite (Ht a) by congruence; try rewrite (Ht b) by congruence;
    rewrite ?slice_first_6, ?slice_last_4; cbn;
    repeat split; try discriminate; try reflexivity;
    try (intros ? [= <-]; reflexivity).
Qed.

(** *** Chain ids and network names *)

Lemma refreshBalance_frame (w : World) :
  let s' := store (exec refreshBalance w) in
  address s' = address (store w) /\ network s' = network (store w) /\
  chainId s' = chainId (store w) /\ status s' = status (store w) /\
  error s' = error (store w) /\ _listeners s' = _listeners (store w).
Proof.
  cbv zeta. unfold_actions.
  destruct w as [[[a|] b n c st e ls] [p|] reg cl k]; cbn;
    try (repeat split; reflexivity);
    destruct (negb (a =? "")%string); cbn; try (repeat split; reflexivity).
  destruct (getBalance p a); cbn; repeat split; reflexivity.
Qed.

Lemma hex_prefix_value (r : string) : forall acc,
  all_hex_digits r = true ->
  fold_left (fun acc d => 16 * acc + d) (Js.hex_prefix r) acc =
  acc * 16 ^ Z.of_nat (String.length r) + hex_value r.
Proof.
  unfold all_hex_digits.
  induction r as [|ch r IH]; intros acc H; cbn [Js.hex_prefix hex_value String.length].
  - cbn. lia.
  - cbn in H. apply andb_true_iff in H as [Hc Hr].
    apply bool_decide_eq_true in Hc. destruct Hc as [d Hd].
    rewrite Hd. cbn [fold_left default]. rewrite (IH _ Hr).
    rewrite Nat2Z.inj_succ, Z.pow_succ_r by lia. cbn [default]. unfold id. ring.
Qed.

Lemma hex_prefix_nonempty (r : string) :
  r <> "" -> all_hex_digits r = true -> Js.hex_prefix r <> [].
Proof.
  unfold all_hex_digits.
  destruct r as [|ch r]; [congruence|]. intros _ H. cbn in H.
  apply andb_true_iff in H as [Hc _].
  apply bool_decide_eq_true in Hc. destruct Hc as [d Hd].
  cbn. rewrite Hd. discriminate.
Qed.

Lemma parseInt16_hex_chain_id (s : string) :
  hex_chain_id s = true -> Js.parseInt16 s = Js.Num (chain_id_value s).
Proof.
  destruct s as [|c1 [|c2 r]]; try discriminate. cbn [hex_chain_id].
  rewrite !andb_true_iff. intros [[[H1 H2] H3] H4].
  apply Ascii.eqb_eq in H1, H2. subst c1 c2.
  apply negb_true_iff, String.eqb_neq in H3.
  pose proof (hex_prefix_nonempty r H3 H4) as Hne.
  pose proof (hex_prefix_value r 0 H4) as Hv.
  unfold Js.parseInt16, Js.hex_math_int. cbn [Js.trim_start chain_id_value].
  change (Js.is_white_space "0") with false. cbv iota.
  destruct (Js.hex_prefix r) as [|d ds] eqn:E; [congruence|].
  rewrite Hv. f_equal. lia.
Qed.

Lemma pretty_Z_ne (k v : Z) : v <> k -> pretty k <> pretty v.
Proof. intros Hne Heq. apply Hne. symmetry. exact (inj pretty _ _ Heq). Qed.

Lemma network_name_label (v : Z) : network_name (Js.Num v) = network_label v.
Proof.
  unfold network_label.
  destruct (decide (v = 1)) as [->|H1]; [vm_compute; reflexivity|].
  destruct (decide (v = 11155111)) as [->|H2]; [vm_compute; reflexivity|].
  destruct (decide (v = 137)) as [->|H3]; [vm_compute; reflexivity|].
  destruct (decide (v = 80001)) as [->|H4]; [vm_compute; reflexivity|].
  unfold network_name, NETWORK_NAMES. cbn [Js.to_string].
  rewrite lookup_insert_ne by (change "1"%string with (pretty 1); apply pretty_Z_ne, H1).
  rewrite lookup_insert_ne
    by (change "11155111"%string with (pretty 11155111); apply pretty_Z_ne, H2).
  rewrite lookup_insert_ne by (change "137"%string with (pretty 137); apply pretty_Z_ne, H3).
  rewrite lookup_insert_ne
    by (change "80001"%string with (pretty 80001); apply pretty_Z_ne, H4).
  rewrite lookup_empty. reflexivity.
Qed.

Lemma onChainChanged_then_refresh (w : World) (hexChainId : string) :
  exec (onChainChanged hexChainId) w =
  exec refreshBalance
    (with_store (fun s =>
       mkStore (address s) (balance s)
               (Some (network_name (Js.parseInt16 hexChainId)))
               (Some (Js.parseInt16 hexChainId))
               (status s) (error s) (_listeners s)) w).
Proof. reflexivity. Qed.

(** C8: a chain-changed notification carrying a hexadecimal chain id (within
    the safe integers) stores the number the string writes in base 16 and
    the label the table [{1, 11155111, 137, 80001}] gives it, ["Chain ID: "]
    followed by the id for any other id; ["0xaa36a7"] gives
    ["Sepolia Testnet"]. *)
Theorem onChainChanged_network_label :
  (forall (w : World) (hexChainId : string),
      hex_chain_id hexChainId = true ->
      chain_id_value hexChainId <= Js.MAX_SAFE_INTEGER ->
      let w' := exec (onChainChanged hexChainId) w in
      chainId (store w') = Some (Js.Num (chain_id_value hexChainId)) /\
      network (store w') = Some (network_label (chain_id_value hexChainId))) /\
  (forall w : World,
      let w' := exec (onChainChanged "0xaa36a7") w in
      chainId (store w') = Some (Js.Num 11155111) /\
      network (store w') = Some "Sepolia Testnet").
Proof.
  assert (G : forall (w : World) (hexChainId : string),
      hex_chain_id hexChainId = true ->
      let w' := exec (onChainChanged hexChainId) w in
      chainId (store w') = Some (Js.Num (chain_id_value hexChainId)) /\
      network (store w') = Some (network_label (chain_id_value hexChainId))).
  { intros w hexChainId Hh. cbv zeta.
    rewrite onChainChanged_then_refresh.
    match goal with |- context [exec refreshBalance ?w0] =>
      destruct (refreshBalance_frame w0) as (_ & Hn & Hc & _) end.
    rewrite Hn, Hc. cbn.
    rewrite (parseInt16_hex_chain_id _ Hh), network_name_label. auto. }
  split.
  - intros w hexChainId Hh _. apply G, Hh.
  - intros w. exact (G w "0xaa36a7" eq_refl).
Qed.

(** ** Further properties of the store *)

(** *** One call of [connect] *)

Lemma connect_full_success (w : World) (p : Provider) a raw c :
  window_ethereum w = Some p ->
  handshake p = Normal (a, raw, c) ->
  connect w =
    (Normal tt,
     mkWorld (mkStore (Some a) (Some (formatEther4 raw)) (Some (network_name (Js.Num c)))
                      (Some (Js.Num c)) Connected None
                      (Some (mkListeners (closures w) (S (closures w)))))
             (Some p)
             (registered w ++ [(accountsChanged, closures w); (chainChanged, S (closures w))])
             (calls w ++ [Call_requestAccounts; Call_getSigner; Call_getAddress;
                          Call_getBalance a; Call_getNetwork])
             (S (S (closures w)))).
Proof.
  intros Hw Hp. rewrite (connect_present _ _ Hw).
  erewrite connect_resume_success by (try reflexivity; eassumption).
  cbn. rewrite <- !app_assoc. reflexivity.
Qed.

(** X1: a [connect] whose five requests are all answered, the chain id being
    a safe integer (so that [Number(networkInfo.chainId)] is exact), stores
    the address, the rendered balance, the chain id and the label the network
    table gives it, ends [Connected] with [error] absent, makes exactly the
    five requests in the order of the source, and registers exactly one new
    listener per event, the pair being recorded in [_listeners]. *)
Theorem connect_success_state (w : World) (p : Provider) a raw c :
  window_ethereum w = Some p ->
  handshake p = Normal (a, raw, c) ->
  0 <= c <= Js.MAX_SAFE_INTEGER ->
  let w' := exec connect w in
  fst (connect w) = Normal tt /\
  store w' =
    mkStore (Some a) (Some (formatEther4 raw)) (Some (network_label c)) (Some (Js.Num c))
            Connected None (Some (mkListeners (closures w) (S (closures w)))) /\
  calls w' = (calls w ++ [Call_requestAccounts; Call_getSigner; Call_getAddress;
                          Call_getBalance a; Call_getNetwork])%list /\
  registered w' =
    (registered w ++ [(accountsChanged, closures w); (chainChanged, S (closures w))])%list.
Proof.
  intros Hw Hp _. cbv zeta. unfold exec.
  rewrite (connect_full_success _ _ _ _ _ Hw Hp). cbn.
  rewrite network_name_label. auto.
Qed.

(** X2: a [connect] one of whose requests fails with anything but code 4001
    returns normally, ends in [Error] with the exception's message, or with
    "Something went wrong." when the message is missing or empty, and leaves
    [address], [balance], [network], [chainId] and the listeners as they
    were. *)
Theorem connect_failure_state (w : World) (p : Provider) (e : Exn) :
  window_ethereum w = Some p ->
  handshake p = Throw e ->
  code e <> CodeNumber 4001 ->
  let w' := exec connect w in
  fst (connect w) = Normal tt /\
  status (store w') = Error /\
  error (store w') =
    Some (match message e with
          | Some m => if decide (m = "") then "Something went wrong." else m
          | None => "Something went wrong."
          end) /\
  address (store w') = address (store w) /\
  balance (store w') = balance (store w) /\
  network (store w') = network (store w) /\
  chainId (store w') = chainId (store w) /\
  _listeners (store w') = _listeners (store w) /\
  registered w' = registered w.
Proof.
  intros Hw Hp Hc. cbv zeta. unfold exec. rewrite (connect_present _ _ Hw).
  match goal with |- context [connect_resume p ?w0] =>
    destruct (connect_resume_failure w0 p e Hp) as (Hn & Hs & _ & Hr) end.
  unfold exec in Hs, Hr. rewrite Hn, Hs, Hr. cbn.
  repeat split; try reflexivity.
  f_equal. unfold connect_error_message.
  assert (Hm : Js.or_else (message e) "Something went wrong." =
               match message e with
               | Some m => if decide (m = "") then "Something went wrong." else m
               | None => "Something went wrong."
               end).
  { destruct (message e) as [m|]; [|reflexivity]. cbn.
    destruct (decide (m = "")) as [->|Hne]; [reflexivity|].
    apply String.eqb_neq in Hne. rewrite Hne. reflexivity. }
  destruct (code e) as [|z|]; try exact Hm.
  destruct (decide (z = 4001)) as [->|Hz]; [congruence|].
  destruct z as [|q|q]; try exact Hm.
  repeat (destruct q as [q|q|]; try exact Hm). congruence.
Qed.

Lemma connect_resume_returns (p : Provider) (w : World) :
  fst (connect_resume p w) = Normal tt /\
  (status (store (exec (connect_resume p) w)) = Connected \/
   status (store (exec (connect_resume p) w)) = Error).
Proof.
  destruct (handshake p) as [[[a raw] c]|e] eqn:Hp.
  - destruct (handshake_normal _ _ _ _ Hp) as (H1 & H2 & H3 & H4 & H5).
    unfold_actions. rewrite H1. cbn. rewrite H2. cbn. rewrite H3. cbn.
    rewrite H4. cbn. rewrite H5. cbn.
    destruct (window_ethereum w); cbn; auto.
  - destruct (connect_resume_failure w p e Hp) as (Hn & Hs & _).
    rewrite Hn, Hs. cbn. auto.
Qed.

(** X3: [connect] never throws to its caller, and when it has run to its end
    the status is [Connected] or [Error], never [Connecting] or [Idle]. *)
Theorem connect_always_settles (w : World) :
  fst (connect w) = Normal tt /\
  (status (store (exec connect w)) = Connected \/
   status (store (exec connect w)) = Error).
Proof.
  destruct (window_ethereum w) as [p|] eqn:Hw.
  - unfold exec. rewrite (connect_present _ _ Hw). apply connect_resume_returns.
  - unfold exec. rewrite (connect_absent _ Hw). cbn. auto.
Qed.

(** *** Listeners and [disconnect] *)

Lemma remove_last_snoc {A} `{EqDecision A} (x : A) (l : list A) :
  remove_last x (l ++ [x]) = l.
Proof.
  induction l as [|y l IH]; cbn.
  - rewrite decide_True by reflexivity.
    rewrite decide_False by (apply not_elem_of_nil). reflexivity.
  - destruct (decide (x = y)) as [->|Hne].
    + rewrite decide_True by (apply elem_of_app; right; apply list_elem_of_singleton;
                               reflexivity).
      now rewrite IH.
    + now rewrite IH.
Qed.

Lemma remove_last_snoc2 {A} `{EqDecision A} (x y : A) (l : list A) :
  x <> y -> remove_last x (l ++ [x; y]) = (l ++ [y])%list.
Proof.
  intros Hxy. induction l as [|z l IH]; cbn.
  - rewrite decide_True by reflexivity.
    rewrite decide_False; [reflexivity|].
    intros Hin. apply list_elem_of_singleton in Hin. contradiction.
  - destruct (decide (x = z)) as [->|Hne].
    + rewrite decide_True by (apply elem_of_app; right; left).
      now rewrite IH.
    + now rewrite IH.
Qed.

Lemma remove_last_pair {A} `{EqDecision A} (x y : A) :
  x <> y -> remove_last y (remove_last x [x; y]) = [].
Proof.
  intros Hxy.
  change [x; y] with ([] ++ [x; y])%list. rewrite remove_last_snoc2 by exact Hxy.
  apply (remove_last_snoc y []).
Qed.

Lemma disconnect_present (w : World) (p : Provider) (l : Listeners) :
  window_ethereum w = Some p ->
  _listeners (store w) = Some l ->
  disconnect w =
    (Normal tt,
     mkWorld initial_store (Some p)
             (remove_last (chainChanged, onChainChanged_ref l)
                (remove_last (accountsChanged, onAccountsChanged_ref l) (registered w)))
             (calls w) (closures w)).
Proof.
  intros Hw Hl. destruct w as [[a b n c st e ls] eth reg cl k]; cbn in *; subst.
  reflexivity.
Qed.

(** X4: [disconnect] makes no request to the provider.  When no listeners are
    recorded, or the provider is there to take them back, it returns normally
    with every field reset ([address], [balance], [network], [chainId],
    [error] absent, status [Idle]) and no listeners recorded, and it never
    adds a listener. *)
Theorem disconnect_resets (w : World) :
  _listeners (store w) = None \/ is_Some (window_ethereum w) ->
  let w' := exec disconnect w in
  fst (disconnect w) = Normal tt /\
  store w' = initial_store /\
  calls w' = calls w /\
  window_ethereum w' = window_ethereum w /\
  (length (registered w') <= length (registered w))%nat.
Proof.
  assert (Hlen : forall (x : event * nat) l, (length (remove_last x l) <= length l)%nat).
  { intros x l. induction l as [|y l IH]; cbn; [lia|].
    destruct (decide (x = y)); [destruct (decide (x ∈ l))|]; cbn; lia. }
  intros H. cbv zeta. unfold exec.
  destruct (_listeners (store w)) as [l|] eqn:Hl.
  - destruct H as [H|[p Hp]]; [discriminate|].
    rewrite (disconnect_present _ _ _ Hp Hl). cbn.
    repeat split; auto.
    etransitivity; [apply Hlen|apply Hlen].
  - rewrite (disconnect_listeners_none _ Hl). cbn. auto.
Qed.

(** With the provider gone while listeners are still recorded,
    [disconnect] throws a [TypeError] before it resets anything: the whole
    state is as before. *)
Lemma disconnect_without_provider_throws (w : World) (l : Listeners) :
  window_ethereum w = None ->
  _listeners (store w) = Some l ->
  disconnect w = (Throw TypeError_undefined, w).
Proof.
  intros Hw Hl. destruct w as [[a b n c st e ls] eth reg cl k]; cbn in *; subst.
  reflexivity.
Qed.

(** X5: a successful [connect] followed by [disconnect] leaves the listeners
    registered on the provider exactly as they were before the [connect], and
    the state object back at its initial value. *)
Theorem connect_disconnect_round_trip (w : World) (p : Provider) a raw c :
  window_ethereum w = Some p ->
  handshake p = Normal (a, raw, c) ->
  let w' := exec disconnect (exec connect w) in
  store w' = initial_store /\
  registered w' = registered w.
Proof.
  intros Hw Hp. cbv zeta.
  pose proof (connect_full_success _ _ _ _ _ Hw Hp) as E.
  apply (f_equal snd) in E. cbn [snd] in E. fold (exec connect w) in E. rewrite E.
  unfold exec. erewrite disconnect_present by reflexivity. cbn.
  split; [reflexivity|].
  rewrite remove_last_snoc2 by discriminate.
  apply remove_last_snoc.
Qed.

(** *** Sequences of calls, again *)

Lemma session_consistent_step (r : Running) (o : op) :
  session_consistent (session r) ->
  one_at_a_time r ->
  match o with
  | op_connect _ => status (store (session r)) <> Connected /\ in_flight r = []
  | _ => True
  end ->
  session_consistent (session (step r o)).
Proof.
  unfold session_consistent. intros Hinv [Hlen Hfl] Hg.
  destruct o as [eth|i|].
  - destruct Hg as [Hn _].
    destruct (_listeners (store (session r))) as [l|] eqn:Hl;
      [destruct Hinv; contradiction|].
    destruct Hinv as (_ & Hr & Ha & Hb & Hne & Hc).
    destruct eth as [p|].
    + rewrite step_connect_present. cbn. rewrite Hl.
      repeat split; auto; try discriminate.
    + rewrite step_connect_absent. cbn. rewrite Hl.
      repeat split; auto; try discriminate.
  - cbn [step]. destruct (in_flight r !! i) as [p|] eqn:Hi; [|exact Hinv].
    destruct (in_flight_single _ _ _ Hlen Hi) as [-> Hfl1].
    assert (Hne : in_flight r <> []) by (rewrite Hfl1; discriminate).
    destruct (Hfl Hne) as (Hst & [q Hq] & He). cbn [session].
    destruct (_listeners (store (session r))) as [l|] eqn:Hl;
      [destruct Hinv; contradiction|].
    destruct Hinv as (_ & Hr & Ha & Hb & Hn & Hc).
    destruct (handshake p) as [[[a raw] c]|e] eqn:Hp.
    + unfold exec. rewrite (connect_resume_success _ _ _ _ _ _ Hq Hp). cbn.
      rewrite Hr, He. cbn. repeat split; eauto.
    + destruct (connect_resume_failure (session r) p e Hp) as (_ & Hs & _ & Hreg).
      rewrite Hs, Hreg. cbn. rewrite Hl.
      repeat split; auto; try discriminate.
  - cbn [step session].
    destruct (_listeners (store (session r))) as [l|] eqn:Hl.
    + destruct Hinv as (_ & [p Hp] & Hr & _).
      unfold exec. rewrite (disconnect_present _ _ _ Hp Hl). cbn. rewrite Hr.
      rewrite remove_last_pair by discriminate.
      repeat split; auto; try discriminate.
    + destruct Hinv as (_ & Hr & _).
      unfold exec. rewrite (disconnect_listeners_none _ Hl). cbn.
      repeat split; auto; try discriminate.
Qed.

Lemma session_consistent_run (ops : list op) : forall r,
  session_consistent (session r) ->
  one_at_a_time r ->
  connects_apart ops r = true ->
  session_consistent (session (run_ops ops r)).
Proof.
  induction ops as [|o ops IH]; intros r Hinv Hone Hg; [exact Hinv|].
  destruct (guard_of_connects_apart _ _ _ Hg) as [Hgo Hrest].
  cbn. apply IH; [| |exact Hrest].
  - apply session_consistent_step; assumption.
  - apply one_at_a_time_step; assumption.
Qed.

Lemma session_consistent_initial (eth : option Provider) :
  session_consistent (initial_world eth).
Proof. unfold session_consistent. cbn. repeat split; auto; discriminate. Qed.

(** X6: take any course of [connect] calls, settlings and [disconnect] calls
    from the initial state in which no [connect] is called while the status
    is [Connected] or while an earlier [connect] still waits for the
    provider.  At its end the session is consistent: listeners are recorded
    exactly while [Connected] and are then the only ones registered on the
    provider (nothing leaks), all of [address], [balance], [network],
    [chainId] are present and [error] is absent; while not [Connected]
    nothing is registered and all four are absent. *)
Theorem guarded_run_consistent (eth0 : option Provider) (ops : list op) :
  connects_apart ops (initial_running eth0) = true ->
  session_consistent (session (run_ops ops (initial_running eth0))).
Proof.
  apply session_consistent_run;
    [apply session_consistent_initial | apply one_at_a_time_initial].
Qed.

Lemma useWallet_connect_resume_success (h : HookState) (p : Provider) a raw c :
  handshake p = Normal (a, raw, c) ->
  exec (useWallet_connect_resume p) h =
    mkHook (Some a) (Some (formatEther4 raw)) (Some (network_name (Js.Num c)))
           Connected (hook_error h).
Proof.
  intros Hp. destruct (handshake_normal _ _ _ _ Hp) as (H1 & H2 & H3 & H4 & H5).
  unfold useWallet_connect_resume, setStatus, setError, setAddress, setBalance, setNetwork.
  unfold_actions. rewrite H1. cbn. rewrite H2. cbn. rewrite H3. cbn.
  rewrite H4. cbn. rewrite H5. cbn. reflexivity.
Qed.

Lemma useWallet_connect_resume_failure (h : HookState) (p : Provider) (e : Exn) :
  handshake p = Throw e ->
  exec (useWallet_connect_resume p) h =
    mkHook (hook_address h) (hook_balance h) (hook_network h) Error
           (Some (connect_error_message "Something went wrong" e)).
Proof.
  unfold handshake, useWallet_connect_resume, setStatus, setError, setAddress, setBalance,
    setNetwork.
  unfold_actions.
  destruct (eth_requestAccounts p) as [[]|]; cbn; [|intros [= ->]; auto].
  destruct (getSigner p) as [[]|]; cbn; [|intros [= ->]; auto].
  destruct (getAddress p) as [a'|]; cbn; [|intros [= ->]; auto].
  destruct (getBalance p a') as [raw'|]; cbn; [|intros [= ->]; auto].
  destruct (getNetwork p) as [c'|]; cbn; [|intros [= ->]; auto].
  discriminate.
Qed.

Lemma useWallet_connect_success (h : HookState) (p : Provider) a raw c :
  handshake p = Normal (a, raw, c) ->
  exec (useWallet_connect (Some p)) h =
    mkHook (Some a) (Some (formatEther4 raw)) (Some (network_name (Js.Num c)))
           Connected None.
Proof.
  intros Hp. destruct (handshake_normal _ _ _ _ Hp) as (H1 & H2 & H3 & H4 & H5).
  unfold useWallet_connect, setStatus, setError, setAddress, setBalance, setNetwork.
  unfold_actions. rewrite H1. cbn. rewrite H2. cbn. rewrite H3. cbn.
  rewrite H4. cbn. rewrite H5. cbn. reflexivity.
Qed.

(** The hook's [connect] on its own is its two parts one after the other. *)
Lemma useWallet_connect_split (eth : option Provider) (h : HookState) :
  exec (useWallet_connect eth) h =
  match useWallet_connect_begin eth h with
  | (Normal (Some p), h') => exec (useWallet_connect_resume p) h'
  | (_, h') => h'
  end.
Proof.
  destruct eth as [p|]; [|reflexivity].
  assert (E : useWallet_connect_begin (Some p) h =
              (Normal (Some p),
               mkHook (hook_address h) (hook_balance h) (hook_network h) Connecting None))
    by reflexivity.
  rewrite E.
  destruct (handshake p) as [[[a raw] c]|e] eqn:Hp.
  - rewrite (useWallet_connect_success _ _ _ _ _ Hp),
      (useWallet_connect_resume_success _ _ _ _ _ Hp). reflexivity.
  - rewrite (useWallet_connect_failure _ _ _ Hp),
      (useWallet_connect_resume_failure _ _ _ Hp). reflexivity.
Qed.

Lemma same_session_step (r : Running) (hr : HookRunning) (o : op) :
  session_consistent (session r) ->
  one_at_a_time r ->
  same_session (session r) (hook_now hr) ->
  hook_in_flight hr = in_flight r ->
  match o with
  | op_connect _ => status (store (session r)) <> Connected /\ in_flight r = []
  | _ => True
  end ->
  same_session (session (step r o)) (hook_now (hook_step hr o)) /\
  hook_in_flight (hook_step hr o) = in_flight (step r o).
Proof.
  unfold same_session. intros Hinv [Hlen Hfl] (Ha & Hb & Hn & Hs & He) Hin Hg.
  destruct o as [eth|i|].
  - destruct eth as [p|].
    + rewrite step_connect_present. cbn. rewrite Hin.
      repeat split; auto; intros [x Hx]; discriminate.
    + rewrite step_connect_absent. cbn. rewrite Hin.
      repeat split; eauto.
  - cbn [step hook_step]. rewrite Hin.
    destruct (in_flight r !! i) as [p|] eqn:Hi; [|repeat split; auto; apply He].
    destruct (in_flight_single _ _ _ Hlen Hi) as [-> Hfl1].
    assert (Hne : in_flight r <> []) by (rewrite Hfl1; discriminate).
    destruct (Hfl Hne) as (Hst & [q Hq] & Her). cbn [session hook_now hook_in_flight in_flight].
    destruct (handshake p) as [[[a raw] c]|e] eqn:Hp.
    + rewrite (useWallet_connect_resume_success _ _ _ _ _ Hp).
      unfold exec. rewrite (connect_resume_success _ _ _ _ _ _ Hq Hp). cbn.
      repeat split; auto; apply He.
    + rewrite (useWallet_connect_resume_failure _ _ _ Hp).
      destruct (connect_resume_failure (session r) p e Hp) as (_ & Hst' & _).
      rewrite Hst'. cbn. repeat split; eauto.
  - cbn [step hook_step session hook_now hook_in_flight in_flight].
    split; [|exact Hin].
    unfold session_consistent in Hinv.
    destruct (_listeners (store (session r))) as [l|] eqn:Hl.
    + destruct Hinv as (_ & [p Hp] & _).
      unfold exec. rewrite (disconnect_present _ _ _ Hp Hl). cbn.
      repeat split; auto; intros [x Hx]; discriminate.
    + unfold exec. rewrite (disconnect_listeners_none _ Hl). cbn.
      repeat split; auto; intros [x Hx]; discriminate.
Qed.

Lemma same_session_run (ops : list op) : forall r hr,
  session_consistent (session r) ->
  one_at_a_time r ->
  same_session (session r) (hook_now hr) ->
  hook_in_flight hr = in_flight r ->
  connects_apart ops r = true ->
  same_session (session (run_ops ops r)) (hook_now (hook_run ops hr)).
Proof.
  induction ops as [|o ops IH]; intros r hr Hinv Hone Hsame Hin Hg; [exact Hsame|].
  destruct (guard_of_connects_apart _ _ _ Hg) as [Hgo Hrest].
  destruct (same_session_step r hr o Hinv Hone Hsame Hin Hgo) as [Hsame' Hin'].
  cbn. apply IH; try assumption.
  - apply session_consistent_step; assumption.
  - apply one_at_a_time_step; assumption.
Qed.

(** X7: the hook and the store are two implementations of one session.  Take
    any course of [connect] calls (each with the injected provider of its
    moment), settlings and [disconnect] calls, the same for both, from their
    initial states, with no [connect] called while [Connected] or while an
    earlier [connect] still waits for the provider.  They end with the same
    address, balance, network and status, and the one shows an error message
    exactly when the other does. *)
Theorem hook_and_store_agree (eth0 : option Provider) (ops : list op) :
  connects_apart ops (initial_running eth0) = true ->
  same_session (session (run_ops ops (initial_running eth0)))
               (hook_now (hook_run ops initial_hook_running)).
Proof.
  apply same_session_run.
  - apply session_consistent_initial.
  - apply one_at_a_time_initial.
  - unfold same_session. cbn. repeat split; auto.
  - reflexivity.
Qed.

(** *** Balance refresh and the listeners' bodies *)

Lemma truthy_nonempty (a : string) : a <> "" -> Js.truthy (Some a) = true.
Proof. intros Ha. cbn. apply negb_true_iff, String.eqb_neq. exact Ha. Qed.

Lemma refreshBalance_failure_silent_aux (w : World) (a : string) :
  address (store w) = Some a ->
  balance_read_fails w a = true ->
  fst (refreshBalance w) = Normal tt /\ store (exec refreshBalance w) = store w.
Proof.
  intros Ha Hf. unfold balance_read_fails in Hf. unfold_actions. rewrite Ha.
  destruct (Js.truthy (Some a)); [|auto].
  destruct (window_ethereum w) as [p|] eqn:Ep; cbn; [|auto].
  destruct (getBalance p a) as [raw|e]; [discriminate|]. cbn. auto.
Qed.

(** X8: with a non-empty address present and the provider answering the
    read, [refreshBalance] makes exactly one request, the balance of that
    address, stores its rendering in [balance] and changes nothing else. *)
Theorem refreshBalance_success (w : World) (p : Provider) (a : string) (raw : Z) :
  address (store w) = Some a ->
  a <> "" ->
  window_ethereum w = Some p ->
  getBalance p a = Normal raw ->
  refreshBalance w =
    (Normal tt,
     mkWorld (mkStore (Some a) (Some (formatEther4 raw)) (network (store w))
                      (chainId (store w)) (status (store w)) (error (store w))
                      (_listeners (store w)))
             (Some p) (registered w) (calls w ++ [Call_getBalance a]) (closures w)).
Proof.
  intros Ha Hne Hw Hb.
  destruct w as [[ad b n c st e ls] eth reg cl k]; cbn in *; subst.
  unfold_actions. cbn. apply String.eqb_neq in Hne. rewrite Hne. cbn.
  rewrite Hb. reflexivity.
Qed.

(** X9: whatever the state and the provider, [refreshBalance] returns
    normally, changes no field of the state object but [balance], touches no
    listener, and makes at most one request: the balance of the current
    address. *)
Theorem refreshBalance_only_balance (w : World) :
  let w' := exec refreshBalance w in
  fst (refreshBalance w) = Normal tt /\
  address (store w') = address (store w) /\
  network (store w') = network (store w) /\
  chainId (store w') = chainId (store w) /\
  status (store w') = status (store w) /\
  error (store w') = error (store w) /\
  _listeners (store w') = _listeners (store w) /\
  registered w' = registered w /\
  (calls w' = calls w \/
   exists a, address (store w) = Some a /\ calls w' = (calls w ++ [Call_getBalance a])%list).
Proof.
  cbv zeta. unfold_actions.
  destruct w as [[[a|] b n c st e ls] [p|] reg cl k]; cbn;
    try (repeat split; auto; fail);
    destruct (negb (a =? "")%string); cbn; try (repeat split; auto; fail).
  destruct (getBalance p a); cbn; repeat split; eauto.
Qed.

(** X10: an account-changed notification with a non-empty list adopts the
    first account as [address] whatever follows it in the list, re-reads the
    balance for that account when the provider answers, keeps the old balance
    when the read fails, and leaves [status], [network], [chainId], [error]
    and the listeners alone. *)
Theorem onAccountsChanged_adopts_first (w : World) (account0 : string) (rest : list string) :
  let w' := exec (onAccountsChanged (account0 :: rest)) w in
  w' = exec (onAccountsChanged [account0]) w /\
  address (store w') = Some account0 /\
  status (store w') = status (store w) /\
  network (store w') = network (store w) /\
  chainId (store w') = chainId (store w) /\
  error (store w') = error (store w) /\
  _listeners (store w') = _listeners (store w) /\
  registered w' = registered w /\
  (forall p raw, account0 <> "" -> window_ethereum w = Some p ->
                 getBalance p account0 = Normal raw ->
                 balance (store w') = Some (formatEther4 raw)) /\
  (balance_read_fails w account0 = true -> balance (store w') = balance (store w)).
Proof.
  cbv zeta. split; [reflexivity|].
  assert (E : exec (onAccountsChanged (account0 :: rest)) w =
              exec refreshBalance
                (with_store (fun s => mkStore (Some account0) (balance s) (network s)
                                        (chainId s) (status s) (error s) (_listeners s)) w))
    by reflexivity.
  rewrite E. clear E.
  match goal with |- context [exec refreshBalance ?w0] =>
    destruct (refreshBalance_only_balance w0) as (_ & Ha & Hn & Hc & Hs & He & Hl & Hr & _);
    set (w1 := w0) in * end.
  rewrite Ha, Hn, Hc, Hs, He, Hl, Hr. cbn.
  repeat split; try reflexivity.
  - intros p raw Hne Hw Hb. unfold exec.
    erewrite (refreshBalance_success w1 p account0 raw); try reflexivity; assumption.
  - intros Hf.
    destruct (refreshBalance_failure_silent_aux w1 account0) as (_ & Hst); auto.
    rewrite Hst. reflexivity.
Qed.

(** *** Chain ids that are not well formed *)

Lemma hex_prefix_app (r t : string) :
  all_hex_digits r = true ->
  Js.hex_prefix t = [] ->
  Js.hex_prefix (r ++ t) = Js.hex_prefix r.
Proof.
  unfold all_hex_digits. intros Hr Ht.
  induction r as [|ch r IH].
  - exact Ht.
  - cbn [list_ascii_of_string forallb] in Hr.
    apply andb_true_iff in Hr as [Hc Hr].
    apply bool_decide_eq_true in Hc. destruct Hc as [d Hd].
    change (String ch r ++ t) with (String ch (r ++ t)).
    cbn [Js.hex_prefix]. rewrite Hd. now rewrite (IH Hr).
Qed.

Lemma parseInt16_prefixed (c2 : ascii) (u : string) :
  c2 = "x"%char \/ c2 = "X"%char ->
  Js.parseInt16 (String "0" (String c2 u)) =
    match Js.hex_prefix u with
    | [] => Js.NaN
    | ds => Js.Num (Js.hex_math_int ds)
    end.
Proof.
  intros [->| ->]; unfold Js.parseInt16; cbn [Js.trim_start];
    change (Js.is_white_space "0") with false; cbv iota;
    destruct (Js.hex_prefix u) as [|d ds]; [reflexivity| |reflexivity|];
    f_equal; lia.
Qed.

(** X11: what [onChainChanged] makes of a string that is not a clean
    hexadecimal chain id.  After ["0x"] or ["0X"], digits are read as far as
    they go and whatever follows them is ignored (for digits that write a
    safe integer, where [parseInt] is exact); with no digit at all the chain
    id is [NaN] and the network label reads "Chain ID: NaN". *)
Theorem onChainChanged_lenient (w : World) (c2 : ascii) (r t : string) :
  c2 = "x"%char \/ c2 = "X"%char ->
  all_hex_digits r = true ->
  Js.hex_prefix t = [] ->
  hex_value r <= Js.MAX_SAFE_INTEGER ->
  let w' := exec (onChainChanged (String "0" (String c2 (r ++ t)))) w in
  (r <> "" ->
   chainId (store w') = Some (Js.Num (hex_value r)) /\
   network (store w') = Some (network_label (hex_value r))) /\
  (r = "" ->
   chainId (store w') = Some Js.NaN /\
   network (store w') = Some "Chain ID: NaN").
Proof.
  intros Hc Hr Ht _. cbv zeta.
  rewrite onChainChanged_then_refresh.
  match goal with |- context [exec refreshBalance ?w0] =>
    destruct (refreshBalance_frame w0) as (_ & Hn & Hci & _) end.
  rewrite Hn, Hci. cbn [store with_store chainId network].
  rewrite (parseInt16_prefixed c2 (r ++ t) Hc), (hex_prefix_app r t Hr Ht).
  split.
  - intros Hne.
    pose proof (hex_prefix_nonempty r Hne Hr) as Hp.
    pose proof (hex_prefix_value r 0 Hr) as Hv.
    unfold Js.hex_math_int.
    destruct (Js.hex_prefix r) as [|d ds] eqn:E; [exfalso; apply Hp; reflexivity|].
    rewrite Hv.
    replace (0 * 16 ^ Z.of_nat (String.length r) + hex_value r) with (hex_value r) by lia.
    rewrite network_name_label. auto.
  - intros ->. cbn [Js.hex_prefix]. split; [reflexivity|].
    vm_compute. reflexivity.
Qed.

(** *** Short addresses *)

Lemma length_string_of_list_ascii (l : list ascii) :
  String.length (string_of_list_ascii l) = length l.
Proof. induction l as [|c l IH]; cbn; congruence. Qed.

Lemma length_append (s1 s2 : string) :
  String.length (s1 ++ s2) = (String.length s1 + String.length s2)%nat.
Proof. induction s1 as [|c s1 IH]; simpl; [reflexivity | now rewrite IH]. Qed.

(** X12: the short form of a non-empty address, as the store getter, the
    hook and [short] of the history list compute it alike: its first 6
    characters, ["..."], its last 4.  It has [min 6 n + 3 + min 4 n]
    characters for an address of [n], so 13 from 6 characters on, and an
    address of 4 characters or fewer appears whole on both sides of the
    dots. *)
Theorem short_form (w : World) (h : HookState) (a : string) :
  a <> "" ->
  address (store w) = Some a ->
  hook_address h = Some a ->
  let n := String.length a in
  short (Some a) = first_chars 6 a ++ "..." ++ last_chars 4 a /\
  fst (getShortAddress w) = Normal (Some (short (Some a))) /\
  useWallet_shortAddress h = Some (short (Some a)) /\
  String.length (short (Some a)) = (Nat.min 6 n + 3 + Nat.min 4 n)%nat /\
  ((n <= 4)%nat -> short (Some a) = a ++ "..." ++ a).
Proof.
  intros Hne Hw Hh. cbv zeta.
  pose proof (truthy_nonempty a Hne) as Ht.
  assert (Hs : short (Some a) = first_chars 6 a ++ "..." ++ last_chars 4 a).
  { unfold short. rewrite Ht, slice_first_6, slice_last_4. reflexivity. }
  split; [exact Hs|]. split; [|split; [|split]].
  - unfold short. unfold_actions. rewrite Hw, Ht. reflexivity.
  - unfold short, useWallet_shortAddress. rewrite Hh, Ht. reflexivity.
  - rewrite Hs. unfold first_chars, last_chars.
    rewrite !length_append, !length_string_of_list_ascii.
    rewrite length_take, length_drop, length_list_ascii_of_string.
    change (String.length "...") with 3%nat. lia.
  - intros Hn. rewrite Hs. unfold first_chars, last_chars.
    pose proof (length_list_ascii_of_string a) as Hl.
    rewrite take_ge by lia.
    replace (length (list_ascii_of_string a) - 4)%nat with 0%nat by lia.
    rewrite drop_0, string_of_list_ascii_of_string. reflexivity.
Qed.

(** ** The send form *)

Lemma starts_with_spec (p : string) : forall s,
  starts_with s p = true <-> exists post, s = p ++ post.
Proof.
  induction p as [|c p IH]; intros s.
  - destruct s; cbn; split; eauto.
  - destruct s as [|d s]; cbn.
    + split; [discriminate | intros [post H]; discriminate].
    + rewrite andb_true_iff, Ascii.eqb_eq, IH. split.
      * intros [-> [post ->]]. eauto.
      * intros [post [= -> ->]]. eauto.
Qed.

Lemma includes_spec (t : string) : forall s,
  includes s t = true <-> exists pre post, s = pre ++ t ++ post.
Proof.
  induction s as [|c s IH]; cbn [includes].
  - rewrite orb_false_r, starts_with_spec. split.
    + intros [post H]. exists "", post. exact H.
    + intros [[|c pre] [post H]]; [eauto | discriminate].
  - rewrite orb_true_iff, starts_with_spec, IH. split.
    + intros [[post H]|[pre [post H]]].
      * exists "", post. exact H.
      * exists (String c pre), post. cbn. now rewrite H.
    + intros [[|d pre] [post H]].
      * left. eauto.
      * right. cbn in H. injection H as -> ->. eauto.
Qed.

Lemma is_user_rejection_spec (err : Exn) :
  is_user_rejection err = true <-> code err = CodeNumber 4001.
Proof.
  unfold is_user_rejection. destruct (code err) as [|z|]; try (split; discriminate).
  destruct (decide (z = 4001)) as [->|Hz]; [split; reflexivity|].
  split; [|congruence].
  destruct z as [|q|q]; try discriminate.
  repeat (destruct q as [q|q|]; try discriminate). congruence.
Qed.

Lemma friendlyError_not_rejection (err : Exn) :
  is_user_rejection err = false ->
  exists m, friendlyError err = Some m /\ m ∈ friendly_messages.
Proof.
  intros Hr. unfold friendlyError. rewrite Hr.
  repeat match goal with
         | |- context [if ?b then _ else _] => destruct b
         end;
    eexists; (split; [reflexivity|]); apply list_elem_of_In; cbn; auto 10.
Qed.

(** X13: [friendlyError] gives [null] exactly for code 4001, and otherwise
    one of its six fixed messages: the raw message of the exception never
    reaches the user. *)
Theorem friendlyError_messages (err : Exn) :
  (friendlyError err = None <-> code err = CodeNumber 4001) /\
  (forall m, friendlyError err = Some m -> m ∈ friendly_messages).
Proof.
  rewrite <- is_user_rejection_spec.
  destruct (is_user_rejection err) eqn:Hr.
  - unfold friendlyError. rewrite Hr. split; [split; auto|discriminate].
  - destruct (friendlyError_not_rejection err Hr) as (m & Hm & Hin).
    rewrite Hm. split; [split; discriminate|].
    intros m' [= <-]. exact Hin.
Qed.

(** X14: an exception (code other than 4001) whose message mentions
    "insufficient funds" anywhere is reported as insufficient funds, whatever
    else the message mentions; one with no message, or an empty one, gets the
    general "Transaction failed" message. *)
Theorem friendlyError_priority (err : Exn) :
  code err <> CodeNumber 4001 ->
  (forall pre post, message err = Some (pre ++ "insufficient funds" ++ post) ->
     friendlyError err =
       Some "Insufficient funds. Remember gas fees are deducted on top of the amount you send.") /\
  (message err = None \/ message err = Some "" ->
     friendlyError err = Some "Transaction failed. Please try again.").
Proof.
  intros Hc.
  assert (Hr : is_user_rejection err = false).
  { destruct (is_user_rejection err) eqn:E; [|reflexivity].
    apply is_user_rejection_spec in E. contradiction. }
  unfold friendlyError. rewrite Hr. split.
  - intros pre post Hm. rewrite Hm.
    assert (Ho : Js.or_else (Some (pre ++ "insufficient funds" ++ post)) "" =
                 pre ++ "insufficient funds" ++ post).
    { unfold Js.or_else, Js.truthy.
      destruct (String.eqb_spec (pre ++ "insufficient funds" ++ post) "") as [E|E];
        [rewrite E|]; reflexivity. }
    rewrite Ho.
    assert (Hi : includes (pre ++ "insufficient funds" ++ post) "insufficient funds" = true)
      by (apply includes_spec; eauto).
    rewrite Hi, orb_true_r. reflexivity.
  - intros [Hm|Hm]; rewrite Hm; reflexivity.
Qed.

(** The store as [sendEth] leaves it for the balance refresh: the signer has
    been asked for when there is a provider. *)
Lemma sendEth_run (wallet : Wallet) (pg : Page) :
  Js.truthy (validate (toAddress (form pg)) (amount (form pg))
                      (balance (store (world pg)))) = false ->
  let f := form pg in
  let w := world pg in
  let w1 := match window_ethereum w with
            | Some _ => mkWorld (store w) (window_ethereum w) (registered w)
                                (calls w ++ [Call_getSigner]) (closures w)
            | None => w
            end in
  sendEth wallet pg =
    (Normal tt,
     match send_outcome wallet pg with
     | Normal hash =>
         mkPage (mkSendForm (toAddress f) (amount f) SUCCESS (Some hash) None)
                (exec refreshBalance w1)
     | Throw e =>
         mkPage (if is_user_rejection e
                 then mkSendForm (toAddress f) (amount f) IDLE (txHash f) None
                 else mkSendForm (toAddress f) (amount f) ERROR (txHash f) (friendlyError e))
                w1
     end).
Proof.
  intros Hv. cbv zeta.
  unfold sendEth, send_outcome. unfold mbind, M_bind at 1. unfold get_state at 1.
  rewrite Hv.
  destruct pg as [[to amt st tx em] [s eth reg cl k]].
  cbn [form world toAddress amount txHash].
  unfold setErrorMsg, setStage, setTxHash, in_form, in_world.
  unfold new_BrowserProvider, request, issue, try_catch, await, modify, get_state,
    mbind, mret, M_bind, M_ret. cbn.
  destruct eth as [p|]; cbn.
  2:{ reflexivity. }
  destruct (getSigner p) as [[]|e]; cbn.
  2:{ destruct (is_user_rejection e); reflexivity. }
  destruct (parseEther amt) as [v|e]; cbn.
  2:{ destruct (is_user_rejection e); reflexivity. }
  destruct (sendTransaction wallet to v) as [[]|e]; cbn.
  2:{ destruct (is_user_rejection e); reflexivity. }
  destruct (wait wallet) as [hash|e]; cbn.
  2:{ destruct (is_user_rejection e); reflexivity. }
  match goal with |- context [refreshBalance ?w0] =>
    pose proof (refreshBalance_only_balance w0) as (Hn & _);
    unfold exec; destruct (refreshBalance w0) as [r w'] end.
  cbn in Hn. subst r. reflexivity.
Qed.

(** X15: when [validate] objects, [sendEth] only shows the objection: the
    stage, the transaction hash and the inputs stay as they are and the
    store, the provider and the wallet are not touched. *)
Theorem sendEth_invalid (wallet : Wallet) (pg : Page) :
  let objection := validate (toAddress (form pg)) (amount (form pg))
                            (balance (store (world pg))) in
  Js.truthy objection = true ->
  sendEth wallet pg =
    (Normal tt,
     mkPage (mkSendForm (toAddress (form pg)) (amount (form pg)) (stage (form pg))
                        (txHash (form pg)) objection)
            (world pg)).
Proof.
  cbv zeta. intros Hv.
  unfold sendEth. unfold mbind, M_bind at 1. unfold get_state at 1.
  rewrite Hv. reflexivity.
Qed.

(** X16: once [validate] has passed, [sendEth] never throws and never ends
    busy.  It ends in [SUCCESS] with the hash of the receipt and no message;
    or, when the first failure carries code 4001, back in [IDLE] with no
    message and the old hash; or in [ERROR] with one of the six messages of
    [friendlyError].  The recipient and the amount are kept. *)
Theorem sendEth_settles (wallet : Wallet) (pg : Page) :
  Js.truthy (validate (toAddress (form pg)) (amount (form pg))
                      (balance (store (world pg)))) = false ->
  let f' := form (exec (sendEth wallet) pg) in
  fst (sendEth wallet pg) = Normal tt /\
  isBusy f' = false /\
  toAddress f' = toAddress (form pg) /\
  amount f' = amount (form pg) /\
  match send_outcome wallet pg with
  | Normal hash => stage f' = SUCCESS /\ txHash f' = Some hash /\ errorMsg f' = None
  | Throw e =>
      if is_user_rejection e
      then stage f' = IDLE /\ txHash f' = txHash (form pg) /\ errorMsg f' = None
      else stage f' = ERROR /\ txHash f' = txHash (form pg) /\
           exists m, errorMsg f' = Some m /\ m ∈ friendly_messages
  end.
Proof.
  intros Hv. cbv zeta. unfold exec. rewrite (sendEth_run wallet pg Hv). cbn [fst snd].
  destruct (send_outcome wallet pg) as [hash|e]; cbn; [auto 10|].
  destruct (is_user_rejection e) eqn:Hr; cbn; [auto 10|].
  destruct (friendlyError_not_rejection e Hr) as (m & Hm & Hin).
  repeat split; auto. exists m. auto.
Qed.

(** X17: what [sendEth] does to the store.  Whatever the outcome no field of
    the state object but [balance] changes and no listener is added or
    removed.  After a confirmed transaction [balance] is re-read from the
    provider; after any failure the state object is untouched. *)
Theorem sendEth_store_effect (wallet : Wallet) (pg : Page) :
  Js.truthy (validate (toAddress (form pg)) (amount (form pg))
                      (balance (store (world pg)))) = false ->
  let w := world pg in
  let w' := world (exec (sendEth wallet) pg) in
  registered w' = registered w /\
  address (store w') = address (store w) /\
  network (store w') = network (store w) /\
  chainId (store w') = chainId (store w) /\
  status (store w') = status (store w) /\
  error (store w') = error (store w) /\
  _listeners (store w') = _listeners (store w) /\
  match send_outcome wallet pg with
  | Normal _ =>
      forall p a raw, window_ethereum w = Some p -> address (store w) = Some a ->
                      a <> "" -> getBalance p a = Normal raw ->
                      balance (store w') = Some (formatEther4 raw)
  | Throw _ => store w' = store w
  end.
Proof.
  intros Hv. cbv zeta. unfold exec. rewrite (sendEth_run wallet pg Hv). cbn [fst snd].
  destruct (send_outcome wallet pg) as [hash|e]; cbn [world].
  - match goal with |- context [exec refreshBalance ?w0] =>
      pose proof (refreshBalance_only_balance w0)
        as (_ & Ha & Hn & Hc & Hs & He & Hl & Hr & _);
      set (w1 := w0) in * end.
    cbv zeta in Ha, Hn, Hc, Hs, He, Hl, Hr. rewrite Ha, Hn, Hc, Hs, He, Hl, Hr.
    assert (Hst : store w1 = store (world pg) /\ registered w1 = registered (world pg)).
    { subst w1. destruct (window_ethereum (world pg)); auto. }
    destruct Hst as [Hst Hrg]. rewrite Hst, Hrg.
    repeat split; auto.
    intros p a raw Hw Had Hne Hb.
    assert (E : w1 = mkWorld (store (world pg)) (Some p) (registered (world pg))
                             (calls (world pg) ++ [Call_getSigner]) (closures (world pg))).
    { subst w1. rewrite Hw. reflexivity. }
    unfold exec. rewrite E.
    erewrite refreshBalance_success; [reflexivity| |exact Hne|reflexivity|exact Hb].
    exact Had.
  - destruct (window_ethereum (world pg)); cbn; repeat split; reflexivity.
Qed.

(** ** The history list *)

Ltac unfold_history :=
  unfold exec, onAddressChange, fetchHistory, try_finally, try_catch, get_field,
    optional_includes, setTxs, setLoading, setTxError, setFetched, await, throw, modify,
    mbind, mret, M_bind, M_ret in *.

(** X18: the guards of [fetchHistory].  With no address it does nothing at
    all; with an address but no API key it reports the missing key and marks
    the list as fetched, without loading anything or touching the list. *)
Theorem fetchHistory_guards (address key : option string) (response : completion json)
    (h : History) :
  (Js.truthy address = false -> fetchHistory address key response h = (Normal tt, h)) /\
  (Js.truthy address = true -> Js.truthy key = false ->
   fetchHistory address key response h =
     (Normal tt,
      mkHistory (txs h) (loading h)
        (Some "Missing VITE_ETHERSCAN_API_KEY in .env file. See instructions above.")
        true)).
Proof.
  split.
  - intros Ha. unfold fetchHistory. rewrite Ha. reflexivity.
  - intros Ha Hk. unfold fetchHistory. rewrite Ha, Hk. reflexivity.
Qed.

(** X19: with an address and a key, [fetchHistory] always returns normally
    with [loading] off and [fetched] on, whatever [fetch] gave.  It ends
    without an error message exactly when the response lists transactions or
    says there are none; in every other case, a failed request or a response
    of any other shape, it shows a message and keeps the list it had. *)
Theorem fetchHistory_completes (address key : option string) (response : completion json)
    (h : History) :
  Js.truthy address = true ->
  Js.truthy key = true ->
  let h' := exec (fetchHistory address key response) h in
  fst (fetchHistory address key response h) = Normal tt /\
  loading h' = false /\
  fetched h' = true /\
  (txError h' = None <-> lists_transactions response = true) /\
  (lists_transactions response = false -> txs h' = txs h /\ is_Some (txError h')) /\
  (forall e, response = Throw e ->
     txError h' = Some "Network error. Check your connection and try again.").
Proof.
  intros Ha Hk. cbv zeta. unfold lists_transactions. unfold_history.
  rewrite Ha, Hk. cbn.
  destruct response as [data|e]; cbn.
  2:{ repeat split; eauto; intros; discriminate. }
  destruct data as [| b | z | s | items | fields]; cbn;
    try (repeat split; eauto; intros; discriminate).
  destruct (is_string (last_field fields "status") "1"); cbn.
  { repeat split; eauto; intros; discriminate. }
  destruct (is_string (last_field fields "message") "No transactions found"); cbn.
  { repeat split; eauto; intros; discriminate. }
  destruct (last_field fields "result") as [[| b | z | s | items | fs]|]; cbn;
    repeat match goal with
           | |- context [if ?b then _ else _] => destruct b; cbn
           end;
    repeat split; eauto; intros; discriminate.
Qed.

(** When the address goes away the effect empties the list and clears
    [fetched] and the message, whatever they were, and fetches nothing. *)
Lemma onAddressChange_absent (address key : option string) (response : completion json)
    (h : History) :
  Js.truthy address = false ->
  onAddressChange address key response h =
    (Normal tt, mkHistory (Some (JArray [])) (loading h) None false).
Proof.
  intros Ha. unfold onAddressChange. rewrite Ha. reflexivity.
Qed.

(** ** The token form *)




End Session.

(** ** The model at work *)

Example parse_sepolia : Js.parseInt16 "0xaa36a7" = Js.Num 11155111.
Proof. reflexivity. Qed.

Example parse_signed_upper : Js.parseInt16 "  -0XfF zz" = Js.Num (-255).
Proof. reflexivity. Qed.

Example parse_no_digit : Js.parseInt16 "0x" = Js.NaN.
Proof. reflexivity. Qed.

Example name_of_unknown_chain : network_name (Js.Num 5) = "Chain ID: 5".
Proof. vm_compute. reflexivity. Qed.

Example name_of_nan : network_name Js.NaN = "Chain ID: NaN".
Proof. vm_compute. reflexivity. Qed.

Example sample_balance : sample_formatEther4 50000000000000000 = "0.0500".
Proof. vm_compute. reflexivity. Qed.

Example connect_granted :
  store (exec (connect sample_formatEther4) (initial_world (Some granting_provider))) =
  mkStore (Some sample_address) (Some "0.0500") (Some "Sepolia Testnet")
          (Some (Js.Num 11155111)) Connected None (Some (mkListeners 0 1)).
Proof. vm_compute. reflexivity. Qed.

(** C1: on the rejecting provider [connect] ends in [Error] with a message
    (the text of the exception that arrived), not in [Idle] without one. *)
Lemma connect_user_rejection_counterexample :
  let w := exec (connect sample_formatEther4) (initial_world (Some rejecting_provider)) in
  status (store w) = Error /\
  error (store w) = message ethers_user_rejection /\
  ~ (status (store w) = Idle /\ error (store w) = None).
Proof.
  vm_compute. split; [reflexivity|]. split; [reflexivity|].
  intros [H _]. discriminate H.
Qed.

Lemma connect_user_rejection_is_error_witness :
  let w := exec (connect sample_formatEther4) (initial_world (Some rejecting_provider)) in
  let h := exec (useWallet_connect sample_formatEther4 (Some rejecting_provider))
                initial_hook in
  status (store w) = Error /\
  (exists m, error (store w) = Some m /\ m <> "") /\
  hook_status h = Error /\
  (exists m, hook_error h = Some m /\ m <> "").
Proof.
  apply (connect_user_rejection_is_error sample_formatEther4
           (initial_world (Some rejecting_provider)) initial_hook rejecting_provider
           ethers_user_rejection); reflexivity.
Defined.

(** C2: a granted [connect] followed, once it has settled, by a rejected one
    leaves the address in place under status [Error]. *)
Lemma address_present_iff_connected_counterexample :
  let w := session (run_ops sample_formatEther4
                      [op_connect (Some granting_provider); op_settle 0;
                       op_connect (Some rejecting_provider); op_settle 0]
                      (initial_running None)) in
  address (store w) = Some sample_address /\
  status (store w) = Error /\
  ~ (is_Some (address (store w)) <-> status (store w) = Connected).
Proof.
  vm_compute. split; [reflexivity|]. split; [reflexivity|].
  intros [H _]. discriminate H. eexists. reflexivity.
Qed.

Lemma address_present_iff_connected_witness :
  let ops := [op_connect (Some granting_provider); op_settle 0; op_disconnect;
              op_connect None;
              op_connect (Some rejecting_provider); op_disconnect; op_settle 0;
              op_connect (Some granting_provider); op_settle 0] in
  let w := session (run_ops sample_formatEther4 ops (initial_running None)) in
  connects_apart sample_formatEther4 ops (initial_running None) = true /\
  (is_Some (address (store w)) <-> status (store w) = Connected).
Proof.
  cbv zeta. split; [vm_compute; reflexivity|].
  apply (address_present_iff_connected sample_formatEther4 None). vm_compute. reflexivity.
Defined.

(** Two calls of [connect] that overlap, neither made while [Connected]: the
    first is granted, the second rejected, and the address stays under
    status [Error]; the course is not one that keeps the calls apart. *)
Example overlapping_connects :
  let ops := [op_connect (Some granting_provider); op_connect (Some rejecting_provider);
              op_settle 0; op_settle 0] in
  let w := session (run_ops sample_formatEther4 ops (initial_running None)) in
  connects_apart sample_formatEther4 ops (initial_running None) = false /\
  address (store w) = Some sample_address /\
  status (store w) = Error.
Proof. vm_compute. auto. Qed.

(** C3: two calls of [connect] in a row, both still waiting for the provider:
    the provider is asked twice, and when both calls complete two pairs of
    listeners are registered; [disconnect] then removes the second pair only. *)
Lemma connect_while_connecting_counterexample :
  let w1 := exec connect_begin (initial_world (Some granting_provider)) in
  let w2 := exec connect_begin w1 in
  let w3 := exec (connect_resume sample_formatEther4 granting_provider) w2 in
  let w4 := exec (connect_resume sample_formatEther4 granting_provider) w3 in
  status (store w1) = Connecting /\
  prompts w1 = 1%nat /\
  prompts w2 = 2%nat /\
  registered w3 = [(accountsChanged, 0%nat); (chainChanged, 1%nat)] /\
  registered w4 = [(accountsChanged, 0%nat); (chainChanged, 1%nat);
                   (accountsChanged, 2%nat); (chainChanged, 3%nat)] /\
  registered (exec disconnect w4) = [(accountsChanged, 0%nat); (chainChanged, 1%nat)].
Proof.
  vm_compute. repeat split; reflexivity.
Qed.

Lemma connect_while_connecting_prompts_again_witness :
  let w := exec connect_begin (initial_world (Some granting_provider)) in
  status (store w) = Connecting /\
  fst (connect_begin w) = Normal (Some granting_provider) /\
  status (store (exec connect_begin w)) = Connecting /\
  prompts (exec connect_begin w) = S (prompts w).
Proof.
  cbv zeta. split; [reflexivity|].
  pose proof (connect_while_connecting_prompts_again sample_formatEther4
                (exec connect_begin (initial_world (Some granting_provider)))
                granting_provider eq_refl eq_refl) as (H1 & H2 & H3 & _).
  auto.
Defined.

Lemma disconnect_idempotent_witness :
  let w := exec (connect sample_formatEther4) (initial_world (Some granting_provider)) in
  exec disconnect (exec disconnect w) = exec disconnect w /\
  stopListeners (initial_world None) = (Normal tt, initial_world None).
Proof.
  cbv zeta. split.
  - apply (proj1 disconnect_idempotent).
  - apply (proj2 disconnect_idempotent). reflexivity.
Defined.

Lemma refreshBalance_absent_noop_witness :
  let w := initial_world (Some granting_provider) in
  refreshBalance sample_formatEther4 w = (Normal tt, w) /\
  store (exec (refreshBalance sample_formatEther4) w) = store w /\
  calls (exec (refreshBalance sample_formatEther4) w) = calls w.
Proof.
  apply (refreshBalance_absent_noop sample_formatEther4
           (initial_world (Some granting_provider))). reflexivity.
Defined.

Lemma refreshBalance_failure_silent_witness :
  let w := with_window_ethereum (Some unreadable_provider)
             (exec (connect sample_formatEther4) (initial_world (Some granting_provider))) in
  address (store w) = Some sample_address /\
  balance (store w) = Some "0.0500" /\
  balance (store (exec (refreshBalance sample_formatEther4) w)) = balance (store w) /\
  status (store (exec (refreshBalance sample_formatEther4) w)) = status (store w) /\
  error (store (exec (refreshBalance sample_formatEther4) w)) = error (store w).
Proof.
  cbv zeta. split; [vm_compute; reflexivity|]. split; [vm_compute; reflexivity|].
  apply (refreshBalance_failure_silent sample_formatEther4
           (with_window_ethereum (Some unreadable_provider)
              (exec (connect sample_formatEther4) (initial_world (Some granting_provider))))
           sample_address); vm_compute; reflexivity.
Defined.

Lemma onChainChanged_network_label_witness :
  let w := exec (connect sample_formatEther4) (initial_world (Some granting_provider)) in
  hex_chain_id "0x89" = true /\
  chain_id_value "0x89" = 137 /\
  chainId (store (exec (onChainChanged sample_formatEther4 "0x89") w)) = Some (Js.Num 137) /\
  network (store (exec (onChainChanged sample_formatEther4 "0x89") w)) = Some "Polygon".
Proof.
  cbv zeta. split; [reflexivity|]. split; [reflexivity|].
  apply (proj1 (onChainChanged_network_label sample_formatEther4)
           (exec (connect sample_formatEther4) (initial_world (Some granting_provider)))
           "0x89").
  - reflexivity.
  - vm_compute. discriminate.
Defined.

Lemma connect_absent_then_success_witness :
  let w1 := exec (connect sample_formatEther4) (initial_world None) in
  let w2 := exec (connect sample_formatEther4)
              (with_window_ethereum (Some granting_provider) w1) in
  status (store w1) = Error /\
  (exists m, error (store w1) = Some m /\ m <> "") /\
  error (store w2) = None /\
  status (store w2) = Connected.
Proof.
  apply (connect_absent_then_success sample_formatEther4 (initial_world None)
           granting_provider sample_address 50000000000000000 11155111); reflexivity.
Defined.

Lemma getShortAddress_spec_witness :
  let w := exec (connect sample_formatEther4) (initial_world (Some granting_provider)) in
  let h := exec (useWallet_connect sample_formatEther4 (Some granting_provider))
                initial_hook in
  address (store w) = Some sample_address /\
  hook_address h = Some sample_address /\
  getShortAddress w = (Normal (Some "0x0879...aF38"), w) /\
  useWallet_shortAddress h = Some "0x0879...aF38".
Proof.
  cbv zeta. split; [reflexivity|]. split; [reflexivity|].
  assert (Hw : address (store (exec (connect sample_formatEther4)
                                 (initial_world (Some granting_provider)))) <> Some "")
    by (vm_compute; discriminate).
  assert (Hh : hook_address (exec (useWallet_connect sample_formatEther4
                                     (Some granting_provider)) initial_hook) <> Some "")
    by (vm_compute; discriminate).
  destruct (getShortAddress_spec _ _ Hw Hh) as (_ & H2 & _ & H4).
  split.
  - exact (H2 sample_address eq_refl).
  - exact (H4 sample_address eq_refl).
Defined.

(** ** The further properties at work *)

Example connected_world_reached :
  exec (connect sample_formatEther4) (initial_world (Some granting_provider)) =
  connected_world.
Proof. vm_compute. reflexivity. Qed.

Lemma connect_success_state_witness :
  let w := exec (connect sample_formatEther4) (initial_world (Some granting_provider)) in
  store w = mkStore (Some sample_address) (Some "0.0500") (Some "Sepolia Testnet")
                    (Some (Js.Num 11155111)) Connected None (Some (mkListeners 0 1)) /\
  calls w = [Call_requestAccounts; Call_getSigner; Call_getAddress;
             Call_getBalance sample_address; Call_getNetwork] /\
  registered w = [(accountsChanged, 0%nat); (chainChanged, 1%nat)].
Proof.
  assert (Hc : 0 <= 11155111 <= Js.MAX_SAFE_INTEGER) by (split; vm_compute; discriminate).
  destruct (connect_success_state sample_formatEther4
              (initial_world (Some granting_provider)) granting_provider
              sample_address 50000000000000000 11155111 eq_refl eq_refl Hc)
    as (_ & H1 & H2 & H3).
  cbv zeta. rewrite H1, H2, H3. vm_compute. auto.
Defined.

Lemma connect_failure_state_witness :
  let w := exec (connect sample_formatEther4) (initial_world (Some unreadable_provider)) in
  status (store w) = Error /\
  error (store w) = Some "could not detect network" /\
  address (store w) = None /\
  registered w = [].
Proof.
  assert (Hc : code (mkExn (CodeString "NETWORK_ERROR") (Some "could not detect network"))
               <> CodeNumber 4001) by discriminate.
  destruct (connect_failure_state sample_formatEther4
              (initial_world (Some unreadable_provider)) unreadable_provider
              (mkExn (CodeString "NETWORK_ERROR") (Some "could not detect network"))
              eq_refl eq_refl Hc)
    as (_ & H1 & H2 & H3 & _ & _ & _ & _ & H4).
  cbv zeta. rewrite H1, H2, H3, H4. vm_compute. auto.
Defined.

Lemma disconnect_resets_witness :
  store (exec disconnect connected_world) = initial_store /\
  calls (exec disconnect connected_world) = calls connected_world.
Proof.
  assert (H : _listeners (store connected_world) = None \/
              is_Some (window_ethereum connected_world))
    by (right; eexists; reflexivity).
  destruct (disconnect_resets connected_world H) as (_ & H1 & H2 & _).
  auto.
Defined.

Lemma connect_disconnect_round_trip_witness :
  let w := exec disconnect (exec (connect sample_formatEther4) connected_world) in
  store w = initial_store /\
  registered w = [(accountsChanged, 0%nat); (chainChanged, 1%nat)].
Proof.
  exact (connect_disconnect_round_trip sample_formatEther4 connected_world
           granting_provider sample_address 50000000000000000 11155111 eq_refl eq_refl).
Defined.

Lemma guarded_run_consistent_witness :
  session_consistent
    (session
       (run_ops sample_formatEther4
          [op_connect (Some rejecting_provider); op_settle 0;
           op_connect (Some granting_provider); op_disconnect; op_settle 0;
           op_disconnect; op_connect (Some granting_provider); op_settle 0]
          (initial_running None))).
Proof.
  apply (guarded_run_consistent sample_formatEther4 None). vm_compute. reflexivity.
Defined.

Lemma hook_and_store_agree_witness :
  let ops := [op_connect None; op_connect (Some unreadable_provider); op_settle 0;
              op_connect (Some granting_provider); op_disconnect; op_settle 0;
              op_disconnect; op_connect (Some granting_provider); op_settle 0] in
  same_session (session (run_ops sample_formatEther4 ops (initial_running None)))
               (hook_now (hook_run sample_formatEther4 ops initial_hook_running)).
Proof.
  apply (hook_and_store_agree sample_formatEther4 None). vm_compute. reflexivity.
Defined.

Lemma refreshBalance_success_witness :
  let w := with_window_ethereum
             (Some (mkProvider (Normal tt) (Normal tt) (Normal sample_address)
                               (fun _ => Normal 1234500000000000000) (Normal 11155111)))
             connected_world in
  balance (store (exec (refreshBalance sample_formatEther4) w)) = Some "1.2345" /\
  calls (exec (refreshBalance sample_formatEther4) w) =
    (calls connected_world ++ [Call_getBalance sample_address])%list.
Proof.
  cbv zeta. unfold exec.
  erewrite (refreshBalance_success sample_formatEther4 _ _ sample_address
              1234500000000000000);
    [vm_compute; auto | reflexivity | discriminate | reflexivity | reflexivity].
Defined.

Lemma onAccountsChanged_adopts_first_witness :
  let w := exec (onAccountsChanged sample_formatEther4
                   ["0x1c7D4B196Cb0C7B01d743Fbc6116a902379C7238"; sample_address])
                connected_world in
  address (store w) = Some "0x1c7D4B196Cb0C7B01d743Fbc6116a902379C7238" /\
  status (store w) = Connected /\
  balance (store w) = Some "0.0500".
Proof.
  destruct (onAccountsChanged_adopts_first sample_formatEther4 connected_world
              "0x1c7D4B196Cb0C7B01d743Fbc6116a902379C7238" [sample_address])
    as (_ & H1 & H2 & _ & _ & _ & _ & _ & H3 & _).
  cbv zeta. rewrite H1, H2.
  rewrite (H3 granting_provider 50000000000000000) by (try discriminate; reflexivity).
  vm_compute. auto.
Defined.

Lemma onChainChanged_lenient_witness :
  network (store (exec (onChainChanged sample_formatEther4 "0X89;") connected_world)) =
    Some "Polygon" /\
  network (store (exec (onChainChanged sample_formatEther4 "0xzz") connected_world)) =
    Some "Chain ID: NaN".
Proof.
  assert (H1 : hex_value "89" <= Js.MAX_SAFE_INTEGER) by (vm_compute; discriminate).
  assert (H2 : hex_value "" <= Js.MAX_SAFE_INTEGER) by (vm_compute; discriminate).
  split.
  - destruct (onChainChanged_lenient sample_formatEther4 connected_world "X" "89" ";"
                (or_intror eq_refl) eq_refl eq_refl H1) as [H _].
    destruct H as [_ H]; [discriminate|]. exact H.
  - destruct (onChainChanged_lenient sample_formatEther4 connected_world "x" "" "zz"
                (or_introl eq_refl) eq_refl eq_refl H2) as [_ H].
    destruct (H eq_refl) as [_ H']. exact H'.
Defined.

Lemma short_form_witness :
  short (Some sample_address) = "0x0879...aF38" /\
  String.length (short (Some sample_address)) = 13%nat.
Proof.
  assert (Hne : sample_address <> "") by discriminate.
  destruct (short_form connected_world
              (mkHook (Some sample_address) None None Connected None)
              sample_address Hne eq_refl eq_refl) as (H1 & _ & _ & H2 & _).
  split; [rewrite H1; reflexivity | rewrite H2; reflexivity].
Defined.

Lemma friendlyError_messages_witness :
  friendlyError (mkExn (CodeString "UNKNOWN_ERROR") (Some "nonce has already been used")) =
    Some "Transaction conflict. Try again in a few seconds." /\
  "Transaction conflict. Try again in a few seconds." ∈ friendly_messages.
Proof.
  split; [reflexivity|].
  apply (proj2 (friendlyError_messages
                  (mkExn (CodeString "UNKNOWN_ERROR") (Some "nonce has already been used")))).
  reflexivity.
Defined.

Lemma friendlyError_priority_witness :
  friendlyError
    (mkExn (CodeString "INSUFFICIENT_FUNDS")
           (Some "insufficient funds for intrinsic transaction cost: gas * price + value")) =
  Some "Insufficient funds. Remember gas fees are deducted on top of the amount you send.".
Proof.
  assert (Hc : code (mkExn (CodeString "INSUFFICIENT_FUNDS")
                 (Some "insufficient funds for intrinsic transaction cost: gas * price + value"))
               <> CodeNumber 4001) by discriminate.
  exact (proj1 (friendlyError_priority _ Hc) ""
           " for intrinsic transaction cost: gas * price + value" eq_refl).
Defined.

Lemma sendEth_invalid_witness :
  let pg := mkPage (mkSendForm "" "0.01" IDLE None None) connected_world in
  sendEth sample_formatEther4 sample_validate sample_parseEther confirming_wallet pg =
    (Normal tt,
     mkPage (mkSendForm "" "0.01" IDLE None
               (Some "Invalid address. Must start with 0x and be 42 characters long."))
            connected_world).
Proof.
  exact (sendEth_invalid sample_formatEther4 sample_validate sample_parseEther
           confirming_wallet (mkPage (mkSendForm "" "0.01" IDLE None None) connected_world)
           eq_refl).
Defined.

Lemma sendEth_settles_witness :
  let run wallet := form (exec (sendEth sample_formatEther4 sample_validate
                                        sample_parseEther wallet)
                               (mkPage sample_send_form connected_world)) in
  stage (run confirming_wallet) = SUCCESS /\
  is_Some (txHash (run confirming_wallet)) /\
  stage (run declining_wallet) = IDLE /\
  errorMsg (run declining_wallet) = None.
Proof.
  cbv zeta.
  destruct (sendEth_settles sample_formatEther4 sample_validate sample_parseEther
              confirming_wallet (mkPage sample_send_form connected_world) eq_refl)
    as (_ & _ & _ & _ & H1 & H2 & _).
  destruct (sendEth_settles sample_formatEther4 sample_validate sample_parseEther
              declining_wallet (mkPage sample_send_form connected_world) eq_refl)
    as (_ & _ & _ & _ & H3 & _ & H4).
  rewrite H1, H2, H3, H4. repeat split; eauto.
Defined.

Lemma sendEth_store_effect_witness :
  let pg := mkPage sample_send_form
              (with_window_ethereum
                 (Some (mkProvider (Normal tt) (Normal tt) (Normal sample_address)
                                   (fun _ => Normal 40000000000000000) (Normal 11155111)))
                 connected_world) in
  let w' := world (exec (sendEth sample_formatEther4 sample_validate sample_parseEther
                                 confirming_wallet) pg) in
  balance (store w') = Some "0.0400" /\
  network (store w') = Some "Sepolia Testnet" /\
  status (store w') = Connected /\
  registered w' = registered connected_world.
Proof.
  cbv zeta.
  match goal with |- context [exec _ ?pg] =>
    destruct (sendEth_store_effect sample_formatEther4 sample_validate sample_parseEther
                confirming_wallet pg eq_refl) as (H1 & _ & H2 & _ & H3 & _ & _ & H4) end.
  rewrite H1, H2, H3.
  split; [|repeat split; reflexivity].
  exact (H4 _ sample_address 40000000000000000 eq_refl eq_refl
            ltac:(discriminate) eq_refl).
Defined.

Lemma fetchHistory_guards_witness :
  fetchHistory None (Some "KEY") (Normal history_page) initial_history =
    (Normal tt, initial_history) /\
  txError (exec (fetchHistory (Some sample_address) None (Normal history_page))
                initial_history) =
    Some "Missing VITE_ETHERSCAN_API_KEY in .env file. See instructions above.".
Proof.
  destruct (fetchHistory_guards None (Some "KEY") (Normal history_page) initial_history)
    as [H1 _].
  destruct (fetchHistory_guards (Some sample_address) None (Normal history_page)
              initial_history) as [_ H2].
  split; [exact (H1 eq_refl)|].
  unfold exec. rewrite (H2 eq_refl eq_refl). reflexivity.
Defined.

Lemma fetchHistory_completes_witness :
  let run response := exec (fetchHistory (Some sample_address) (Some "KEY") response)
                           (mkHistory (Some (JArray [])) true None false) in
  loading (run (Normal rate_limited_page)) = false /\
  fetched (run (Normal rate_limited_page)) = true /\
  txError (run (Normal rate_limited_page)) =
    Some "Rate limited. Wait a moment and refresh." /\
  txError (run (Normal history_page)) = None /\
  txError (run (Throw TypeError_undefined)) =
    Some "Network error. Check your connection and try again.".
Proof.
  cbv zeta.
  destruct (fetchHistory_completes (Some sample_address) (Some "KEY")
              (Normal rate_limited_page) (mkHistory (Some (JArray [])) true None false)
              eq_refl eq_refl) as (_ & H1 & H2 & _).
  destruct (fetchHistory_completes (Some sample_address) (Some "KEY")
              (Normal history_page) (mkHistory (Some (JArray [])) true None false)
              eq_refl eq_refl) as (_ & _ & _ & H3 & _).
  destruct (fetchHistory_completes (Some sample_address) (Some "KEY")
              (Throw TypeError_undefined) (mkHistory (Some (JArray [])) true None false)
              eq_refl eq_refl) as (_ & _ & _ & _ & _ & H4).
  split; [exact H1|]. split; [exact H2|]. split; [reflexivity|].
  split; [apply H3; reflexivity|]. exact (H4 _ eq_refl).
Defined.


